(** * Race estimator: anomaly detector and finish-time projection

    Shallow embedding of

    - [FitAnomalyDetector] and [test_scenario] from
      [scripts/validate_fit_anomaly_detection.py],
    - the session pace, the per-record 5K estimate and the key-timestamp
      lookup of [analyze_fit_file] in [scripts/analyze_fit.py],
    - the extraction loop, the summary pace, the sampled table and the
      milestones of [parse_gpx] in [scripts/analyze_gpx.py].

    File decoding (fitparse, ElementTree) and printing are left out: the
    functions take the decoded values and return what would be printed.
    [haversine] needs [sin], [cos], [asin] and [sqrt]; the extraction loop
    is modelled over any function in its place.

    Numbers.  The scripts compute with Python floats.  Here every float is an
    exact rational ([Q]); the decimal literals of the source ([0.05], [20.0],
    [0.001], ...) are the rationals they denote, and rounding is not
    modelled.  Python raises [ZeroDivisionError] on a zero divisor, so
    division is the partial operation [Py.div], and every function that
    divides lives in the [option] error monad: [None] is a raised error.

    Counters.  [distance_stagnation_count] and [pace_anomaly_count] are only
    ever assigned [0] or incremented, so they are [nat].

    Explanations.  [detect] builds a list of f-strings and joins it with an
    arrow.  The list is kept, with each f-string replaced by a constructor
    of [Reason] carrying the values the string interpolates. *)

From Stdlib Require Import QArith Qabs Qround ZArith Lia Lqa List Sorted Bool
  String.
Import ListNotations.
Open Scope Q_scope.

(** ** Python numeric operations over [Q] *)

Module Py.

(** [a < b] on floats. *)
Definition lt (a b : Q) : bool := negb (Qle_bool b a).

(** [a <= b] on floats. *)
Definition le (a b : Q) : bool := Qle_bool a b.

(** [a > b] and [a >= b]. *)
Definition gt (a b : Q) : bool := lt b a.
Definition ge (a b : Q) : bool := le b a.

(** [a / b]: raises [ZeroDivisionError] when [b] is zero. *)
Definition div (a b : Q) : option Q :=
  if Qeq_bool b 0 then None else Some (a / b).

(** [a // b] on floats: the floor of the quotient, as a float. *)
Definition floordiv (a b : Q) : option Q :=
  if Qeq_bool b 0 then None else Some (inject_Z (Qfloor (a / b))).

(** [a % b] on floats: the remainder that goes with [//]. *)
Definition mod_ (a b : Q) : option Q :=
  if Qeq_bool b 0 then None else Some (a - b * inject_Z (Qfloor (a / b))).

(** [int(x)]: truncation towards zero. *)
Definition int (x : Q) : Z := Z.quot (Qnum x) (Zpos (Qden x)).

(** Sequencing in the error monad. *)
Definition bind {A B : Type} (m : option A) (k : A -> option B) : option B :=
  match m with
  | Some a => k a
  | None => None
  end.

End Py.

Notation "x <- m ;; k" := (Py.bind m (fun x => k))
  (at level 61, m at next level, right associativity).

(** ** [validate_fit_anomaly_detection.py] *)

Module Detector.

(** The fields [__init__] and [reset] assign. *)
Record DetectorState : Type := mkState {
  last_valid_distance : Q;
  distance_stagnation_count : nat;
  last_valid_pace : Q;
  pace_anomaly_count : nat
}.

(** The three constants [__init__] stores on the instance; nothing
    reassigns them. *)
Definition FIT_STAGNATION_THRESHOLD : nat := 5.
Definition MAX_REASONABLE_PACE : Q := 20.0.
Definition MIN_REASONABLE_PACE : Q := 0.05.

(** [FitAnomalyDetector()] *)
Definition init : DetectorState := mkState 0.0 0 0.0 0.

(** [reset(self)] *)
Definition reset (self : DetectorState) : DetectorState :=
  mkState 0.0 0 0.0 0.

(** One entry of the [explanation] list, in the order of the source:
    lines 51, 57, 60, 71, 74 and 80. *)
Inductive Reason : Type :=
| InsanePace (pace : Q)
| DistanceStagnation (count : nat)
| DistanceFrozen
| PaceSpike (pace_ratio : Q) (anomaly_count : nat)
| MultiplePaceSpikes
| Normal.

(** What a call leaves behind: the returned pair and the mutated
    instance. *)
Record Outcome : Type := mkOutcome {
  should_show : bool;
  explanation : list Reason;
  state : DetectorState
}.

(** Field assignments. *)
Definition set_last_valid_distance (self : DetectorState) (v : Q) :=
  mkState v (distance_stagnation_count self)
          (last_valid_pace self) (pace_anomaly_count self).
Definition set_distance_stagnation_count (self : DetectorState) (v : nat) :=
  mkState (last_valid_distance self) v
          (last_valid_pace self) (pace_anomaly_count self).
Definition set_last_valid_pace (self : DetectorState) (v : Q) :=
  mkState (last_valid_distance self) (distance_stagnation_count self)
          v (pace_anomaly_count self).
Definition set_pace_anomaly_count (self : DetectorState) (v : nat) :=
  mkState (last_valid_distance self) (distance_stagnation_count self)
          (last_valid_pace self) v.

(** Lines 79-81: accept the pace and show. *)
Definition accept (self : DetectorState) (expl : list Reason) (pace : Q)
  : option Outcome :=
  Some (mkOutcome true (expl ++ [Normal]) (set_last_valid_pace self pace)).

(** Lines 66-81: the pace-consistency axis and the tail of [detect]. *)
Definition pace_consistency (self : DetectorState) (expl : list Reason)
           (pace : Q) : option Outcome :=
  if Py.gt (last_valid_pace self) 0.0 then
    pace_ratio <- Py.div pace (last_valid_pace self) ;;
    if Py.gt pace_ratio 2.0 || Py.lt pace_ratio 0.5 then
      let self := set_pace_anomaly_count self (S (pace_anomaly_count self)) in
      let expl := expl ++ [PaceSpike pace_ratio (pace_anomaly_count self)] in
      if (3 <=? pace_anomaly_count self)%nat then
        Some (mkOutcome false (expl ++ [MultiplePaceSpikes]) self)
      else accept self expl pace
    else
      accept (set_pace_anomaly_count self 0) expl pace
  else accept self expl pace.

(** [detect(self, elapsed_distance, pace)], lines 43-81. *)
Definition detect (self : DetectorState) (elapsed_distance pace : Q)
  : option Outcome :=
  if Py.lt pace MIN_REASONABLE_PACE || Py.gt pace MAX_REASONABLE_PACE then
    Some (mkOutcome false [InsanePace pace] self)
  else if Py.lt (Qabs (elapsed_distance - last_valid_distance self)) 0.001
  then
    let self :=
      set_distance_stagnation_count self (S (distance_stagnation_count self))
    in
    let expl := [DistanceStagnation (distance_stagnation_count self)] in
    if (FIT_STAGNATION_THRESHOLD <=? distance_stagnation_count self)%nat then
      Some (mkOutcome false (expl ++ [DistanceFrozen]) self)
    else pace_consistency self expl pace
  else
    let self := set_distance_stagnation_count self 0 in
    let self := set_last_valid_distance self elapsed_distance in
    pace_consistency self [] pace.

(** [PaceEvent]; [elapsed_time_ms] is an [int] in the source. *)
Record PaceEvent : Type := mkEvent {
  elapsed_time_ms : Z;
  distance_m : Q;
  calculated_pace : Q;
  anomaly_type : option string;
  event_explanation : string
}.

(** The call line 94 makes for one event. *)
Definition evaluate (detector : DetectorState) (event : PaceEvent)
  : option Outcome :=
  detect detector (distance_m event) (calculated_pace event).

(** The loop of [test_scenario], lines 93-103, from a given detector and
    suppression count: the [(should_show, explanation)] pairs in order, the
    final [suppression_count] and the detector left behind. *)
Fixpoint run_events (detector : DetectorState) (suppression_count : nat)
         (events : list PaceEvent)
  : option (list (bool * list Reason) * nat * DetectorState) :=
  match events with
  | [] => Some ([], suppression_count, detector)
  | event :: rest =>
      o <- evaluate detector event ;;
      let suppression_count :=
        if should_show o then suppression_count else S suppression_count in
      r <- run_events (state o) suppression_count rest ;;
      let '(rows, n, final) := r in
      Some ((should_show o, explanation o) :: rows, n, final)
  end.

(** [test_scenario(name, events)]: a fresh detector, count from zero. *)
Definition test_scenario (events : list PaceEvent) :=
  run_events init 0 events.

(** The events of [test_pace_spike_recovery]. *)
Definition pace_spike_recovery_events : list PaceEvent :=
  [ mkEvent 10000 1000.00 0.100 (Some "normal"%string) "Normal pace";
    mkEvent 20000 1050.00 0.105 (Some "normal"%string) "Slight variance OK";
    mkEvent 30000 1100.00 0.111 (Some "normal"%string) "Gradual change OK";
    mkEvent 40000 900.00 0.044 (Some "spike"%string)
            "SPIKE DOWN (2.5x faster)";
    mkEvent 50000 950.00 0.105 (Some "spike"%string)
            "SPIKE UP (2.4x slower)";
    mkEvent 60000 1000.00 0.100 (Some "spike"%string)
            "Back to normal after 3 spikes - SUPPRESS";
    mkEvent 70000 1050.00 0.105 (Some "normal"%string) "Reset on recovery" ].

End Detector.

(** ** [analyze_fit.py] *)

Module AnalyzeFit.

(** Lines 104-108: current pace in seconds per metre. *)
Definition pace_sec_per_m (timer_ms distance_m : Q) : option Q :=
  if Py.gt distance_m 0 then
    seconds <- Py.div timer_ms 1000.0 ;;
    Py.div seconds distance_m
  else Some 0.

(** Lines 110-118: the 5K estimate of one record, given its pace. *)
Definition estimate (distance_m pace_sec_per_m : Q) : Q :=
  if Py.gt distance_m 100
     && (Py.le 0.05 pace_sec_per_m && Py.le pace_sec_per_m 20.0)
  then
    let remaining_5k := 5000 - distance_m in
    if Py.gt remaining_5k 0 then remaining_5k * pace_sec_per_m else 0
  else 0.

(** Lines 104-118 for one record: [est_5k_sec]. *)
Definition est_5k_sec (timer_ms distance_m : Q) : option Q :=
  pace <- pace_sec_per_m timer_ms distance_m ;;
  Some (estimate distance_m pace).

(** One entry of [records]: lines 58-59 keep a data point only when it has
    both [timer_time_ms] and [distance_m], and line 48 sets
    [timer_time_cs] beside [timer_time_ms]. *)
Record FitRecord : Type := mkRecord {
  timer_time_ms : Q;
  timer_time_cs : Q;
  distance_m : Q
}.

(** Lines 45-50: the data point of a record message with a [timer_time]
    value and a [distance] value.  A zero value is falsy. *)
Definition data_point (timer_value distance_value : Q) : option FitRecord :=
  cs <- (if Qeq_bool timer_value 0 then Some 0 else Py.div timer_value 10) ;;
  Some (mkRecord timer_value cs distance_value).

(** Line 87: the session pace in minutes per kilometre. *)
Definition pace_min_per_km (avg_speed : Q) : option Q :=
  if Py.gt avg_speed 0 then
    per_m <- Py.div 1000.0 avg_speed ;;
    Py.div per_m 60.0
  else Some 0.

(** Lines 99-118 for one entry of [records]. *)
Definition record_est_5k_sec (rec : FitRecord) : option Q :=
  est_5k_sec (timer_time_ms rec) (distance_m rec).

(** Line 141: the records within 50 centiseconds of [key_time]. *)
Definition matching (records : list FitRecord) (key_time : Q)
  : list FitRecord :=
  filter (fun r => Py.lt (Qabs (timer_time_cs r - key_time)) 50) records.

(** What lines 148-159 compute and print for a matching record. *)
Record KeyRow : Type := mkKeyRow {
  key_pace_sec_per_m : Q;
  key_remaining_5k : Q;
  key_est_5k_sec : Q;
  key_est_5k_min : Q
}.

(** Lines 143-159 for the record [rec = matching[0]]: the inner [None] is
    the skipped body of line 148. *)
Definition key_row (rec : FitRecord) : option (option KeyRow) :=
  if Py.gt (distance_m rec) 0 then
    seconds <- Py.div (timer_time_ms rec) 1000.0 ;;
    pace_sec_per_m <- Py.div seconds (distance_m rec) ;;
    let remaining_5k := 5000 - distance_m rec in
    let est_5k_sec :=
      if Py.gt remaining_5k 0 then remaining_5k * pace_sec_per_m else 0 in
    est_5k_min <- Py.div est_5k_sec 60.0 ;;
    Some (Some (mkKeyRow pace_sec_per_m remaining_5k est_5k_sec est_5k_min))
  else Some None.

(** Lines 140-159 for one [key_time]: the outer [None] is a raised error,
    [Some None] is nothing printed. *)
Definition key_time_report (records : list FitRecord) (key_time : Q)
  : option (option KeyRow) :=
  match matching records key_time with
  | [] => Some None
  | rec :: _ => key_row rec
  end.

End AnalyzeFit.

(** ** Python sequence operations *)

Module PySeq.

(** Insertion into an increasing list without repetition. *)
Fixpoint insert (i : nat) (l : list nat) : list nat :=
  match l with
  | [] => [i]
  | j :: rest =>
      if (i <? j)%nat then i :: l
      else if (i =? j)%nat then l
      else j :: insert i rest
  end.

(** [sorted(set(l))] on a list of indices: its elements, once each, in
    increasing order. *)
Definition sorted_set (l : list nat) : list nat := fold_right insert [] l.

(** The scan of [min(l, key=key)] from a first candidate: a later element
    replaces the candidate only when its key is strictly smaller. *)
Fixpoint min_from {A : Type} (key : A -> Q) (best : A) (l : list A) : A :=
  match l with
  | [] => best
  | x :: rest =>
      min_from key (if Py.lt (key x) (key best) then x else best) rest
  end.

(** [min(l, key=key)]: raises [ValueError] on an empty list. *)
Definition min_by {A : Type} (key : A -> Q) (l : list A) : option A :=
  match l with
  | [] => None
  | x :: rest => Some (min_from key x rest)
  end.

(** A [for] loop whose body may raise: the results in order, or the first
    error. *)
Fixpoint for_each {A B : Type} (body : A -> option B) (l : list A)
  : option (list B) :=
  match l with
  | [] => Some []
  | x :: rest =>
      y <- body x ;;
      ys <- for_each body rest ;;
      Some (y :: ys)
  end.

(** [l[-1]]: raises [IndexError] on an empty list. *)
Definition last_item {A : Type} (l : list A) : option A :=
  match l with
  | [] => None
  | x :: rest => Some (last rest x)
  end.

End PySeq.

(** ** [analyze_gpx.py] *)

Module AnalyzeGpx.

(** The two columns a trackpoint gets, lines 165-181: [est_5k_str] and
    [display_status].  [Shown] keeps [est_5k_sec] and the two integers
    that [est_5k_str] prints as minutes and seconds; its status is the
    check mark.  [Hit] is ["HIT!"], [Warmup] and [Insane] print the
    dashes placeholder. *)
Inductive Cell : Type :=
| Shown (est_5k_sec : Q) (est_5k_min est_5k_sec_part : Z)
| Hit
| Warmup
| Insane.

(** Lines 155-159: current pace in seconds per metre. *)
Definition pace_sec_per_m (elapsed_sec distance_m : Q) : option Q :=
  if Py.gt distance_m 0 then Py.div elapsed_sec distance_m else Some 0.

(** Lines 161-181, given the pace. *)
Definition estimate (distance_m pace_sec_per_m : Q) : option Cell :=
  let min_distance_reached := Py.ge distance_m 100 in
  let pace_is_sane := Py.le 0.05 pace_sec_per_m && Py.le pace_sec_per_m 20.0 in
  if min_distance_reached && pace_is_sane then
    let remaining_5k := 5000 - distance_m in
    if Py.gt remaining_5k 0 then
      let est_5k_sec := remaining_5k * pace_sec_per_m in
      minutes <- Py.floordiv est_5k_sec 60 ;;
      seconds <- Py.mod_ est_5k_sec 60 ;;
      Some (Shown est_5k_sec (Py.int minutes) (Py.int seconds))
    else Some Hit
  else if negb min_distance_reached then Some Warmup
  else Some Insane.

(** Lines 155-181 for one trackpoint. *)
Definition est_5k (elapsed_sec distance_m : Q) : option Cell :=
  pace <- pace_sec_per_m elapsed_sec distance_m ;;
  estimate distance_m pace.

(** What lines 64-82 read from one [trkpt] element: the two coordinates,
    and the time (in seconds), elevation, heart rate and cadence when the
    element has them. *)
Record TrkPt : Type := mkTrkPt {
  trk_lat : Q;
  trk_lon : Q;
  trk_time : option Q;
  trk_ele : option Q;
  trk_hr : option Z;
  trk_cad : option Z
}.

(** The dictionary lines 95-105 append to [trackpoints]. *)
Record Trackpoint : Type := mkTrackpoint {
  timestamp : option Q;
  elapsed_sec : Q;
  elapsed_cs : Q;
  lat : Q;
  lon : Q;
  elevation : Q;
  distance_m : Q;
  heart_rate : option Z;
  cadence : option Z
}.

(** The variables of the extraction loop, lines 56-60. *)
Record Extraction : Type := mkExtraction {
  trackpoints : list Trackpoint;
  cumulative_distance : Q;
  prev_lat : option Q;
  prev_lon : option Q;
  start_time : option Q
}.

(** Lines 56-60. *)
Definition extraction_start : Extraction :=
  mkExtraction [] 0.0 None None None.

Section WithHaversine.

(** [haversine(lon1, lat1, lon2, lat2)], lines 16-33: built from [sin],
    [cos], [asin] and [sqrt], which rationals do not have; the loop is
    modelled over any such function. *)
Variable haversine : Q -> Q -> Q -> Q -> Q.

(** Lines 63-108: one turn of the extraction loop. *)
Definition extract_step (st : Extraction) (trkpt : TrkPt) : Extraction :=
  let lat := trk_lat trkpt in
  let lon := trk_lon trkpt in
  let timestamp := trk_time trkpt in
  let elevation :=
    match trk_ele trkpt with Some e => e | None => 0.0 end in
  let cumulative_distance :=
    match prev_lat st, prev_lon st with
    | Some prev_lat, Some prev_lon =>
        cumulative_distance st + haversine prev_lon prev_lat lon lat
    | _, _ => cumulative_distance st
    end in
  let start_time :=
    match start_time st, timestamp with
    | None, Some t => Some t
    | s, _ => s
    end in
  let elapsed_seconds :=
    match timestamp, start_time with
    | Some t, Some s => t - s
    | _, _ => 0
    end in
  mkExtraction
    (trackpoints st
     ++ [mkTrackpoint timestamp elapsed_seconds (elapsed_seconds * 100)
                      lat lon elevation cumulative_distance
                      (trk_hr trkpt) (trk_cad trkpt)])
    cumulative_distance (Some lat) (Some lon) start_time.

(** Lines 56-108: the whole loop. *)
Definition extract (trkpts : list TrkPt) : Extraction :=
  fold_left extract_step trkpts extraction_start.

End WithHaversine.

(** Lines 121-124: the average pace of the summary, in s/m and min/km; the
    inner [None] is the skipped body. *)
Definition summary_pace (last_point : Trackpoint) : option (option (Q * Q)) :=
  if Py.gt (distance_m last_point) 0 then
    avg_pace_sec_per_m <-
      Py.div (elapsed_sec last_point) (distance_m last_point) ;;
    avg_pace_min_per_km <- Py.div (avg_pace_sec_per_m * 1000) 60 ;;
    Some (Some (avg_pace_sec_per_m, avg_pace_min_per_km))
  else Some None.

(** Lines 138-140: the indices, from [i] on, of the points at a whole
    hundred of metres past the warm-up. *)
Fixpoint hundred_metre_indices (i : nat) (pts : list Trackpoint)
  : list nat :=
  match pts with
  | [] => []
  | pt :: rest =>
      if Py.ge (distance_m pt) 100
         && (Py.int (distance_m pt) mod 100 =? 0)%Z
      then i :: hundred_metre_indices (S i) rest
      else hundred_metre_indices (S i) rest
  end.

(** Lines 135-146. *)
Definition sample_indices (pts : list Trackpoint) : list nat :=
  PySeq.sorted_set
    ([0%nat] ++ hundred_metre_indices 0 pts ++ [(List.length pts - 1)%nat]).

(** Lines 151-153 and 205-206: the minutes and seconds [time_str]
    prints. *)
Definition minutes_seconds (elapsed : Q) : option (Z * Z) :=
  minutes <- Py.floordiv elapsed 60 ;;
  seconds <- Py.mod_ elapsed 60 ;;
  Some (Py.int minutes, Py.int seconds).

(** One printed line of the table, lines 183-184. *)
Record Row : Type := mkRow {
  row_time : Z * Z;
  row_timer_cs : Q;
  row_distance_m : Q;
  row_pace_sec_per_m : Q;
  row_cell : Cell
}.

(** Lines 148-184 for one index: [trackpoints[idx]] raises [IndexError]
    out of range. *)
Definition table_row (pts : list Trackpoint) (idx : nat) : option Row :=
  pt <- nth_error pts idx ;;
  time <- minutes_seconds (elapsed_sec pt) ;;
  pace <- pace_sec_per_m (elapsed_sec pt) (distance_m pt) ;;
  cell <- estimate (distance_m pt) pace ;;
  Some (mkRow time (elapsed_cs pt) (distance_m pt) pace cell).

(** Lines 135-184: the table. *)
Definition table (pts : list Trackpoint) : option (list Row) :=
  PySeq.for_each (table_row pts) (sample_indices pts).

(** The targets of lines 193-198. *)
Definition milestones : list Q := [100; 5000; 8046.72; 10000].

(** What lines 210-213 print for a milestone. *)
Record Milestone : Type := mkMilestone {
  milestone_time : Z * Z;
  milestone_elapsed_sec : Q;
  milestone_distance_m : Q;
  milestone_pace_sec_per_m : Q;
  milestone_pace_min_per_km : Q
}.

(** Line 202: the point closest to [target_dist], the first one on a
    tie. *)
Definition closest (pts : list Trackpoint) (target_dist : Q)
  : option Trackpoint :=
  PySeq.min_by (fun p => Qabs (distance_m p - target_dist)) pts.

(** Lines 200-216 for one target: the inner [None] is the skipped body of
    line 204. *)
Definition milestone (pts : list Trackpoint) (target_dist : Q)
  : option (option Milestone) :=
  closest <- closest pts target_dist ;;
  if Py.gt (distance_m closest) (target_dist - 50) then
    time <- minutes_seconds (elapsed_sec closest) ;;
    pace_sec_per_m <- Py.div (elapsed_sec closest) (distance_m closest) ;;
    pace_min_per_km <- Py.div (pace_sec_per_m * 1000) 60 ;;
    Some (Some (mkMilestone time (elapsed_sec closest) (distance_m closest)
                            pace_sec_per_m pace_min_per_km))
  else Some None.

(** What [parse_gpx] prints after the extraction. *)
Record Report : Type := mkReport {
  report_date : Q;
  report_pace : option (Q * Q);
  report_table : list Row;
  report_milestones : list (option Milestone)
}.

(** Lines 110-228 on the extracted trackpoints: the inner [None] is the
    early return of lines 110-112, the outer one a raised error.  Line 118
    calls [strftime] on the first timestamp, which raises when it is
    [None]. *)
Definition report (pts : list Trackpoint) : option (option Report) :=
  match pts with
  | [] => Some None
  | first :: _ =>
      last_point <- PySeq.last_item pts ;;
      date <- timestamp first ;;
      pace <- summary_pace last_point ;;
      rows <- table pts ;;
      marks <- PySeq.for_each (milestone pts) milestones ;;
      Some (Some (mkReport date pace rows marks))
  end.

End AnalyzeGpx.

(** ** The projector as the specification words it

    [project(elapsed_time, distance, target_distance)]: [None] is
    "not available".  This definition follows the specification, not the
    scripts; it is what the scripts are compared with. *)

Module Spec.

Definition project (elapsed_time cumulative_distance target_distance : Q)
  : option Q :=
  let pace := elapsed_time / cumulative_distance in
  if Py.ge cumulative_distance 100 && (Py.le 0.05 pace && Py.le pace 20.0)
  then
    let remaining := target_distance - cumulative_distance in
    if Py.gt remaining 0 then Some (remaining * pace) else Some 0
  else None.

End Spec.

(** ** Vocabulary of the statements *)

Section Vocabulary.
Import Detector.

(** The pace the validator lets through. *)
Definition pace_in_bounds (pace : Q) : Prop :=
  MIN_REASONABLE_PACE <= pace /\ pace <= MAX_REASONABLE_PACE.

(** The distance is within a millimetre of the last valid one. *)
Definition stagnant (self : DetectorState) (elapsed_distance : Q) : Prop :=
  Qabs (elapsed_distance - last_valid_distance self) < 0.001.

(** The distance axis lets the sample through to the pace axis. *)
Definition distance_passes (self : DetectorState) (elapsed_distance : Q)
  : Prop :=
  stagnant self elapsed_distance ->
  (S (distance_stagnation_count self) < FIT_STAGNATION_THRESHOLD)%nat.

(** The ratio of [pace] to [reference] is inside [0.5, 2.0]. *)
Definition ratio_in_range (reference pace : Q) : Prop :=
  0.5 <= pace / reference /\ pace / reference <= 2.0.

(** The ratio is an excursion. *)
Definition ratio_spikes (reference pace : Q) : Prop :=
  2.0 < pace / reference \/ pace / reference < 0.5.

(** The pace axis sees no excursion: either it is skipped (no accepted
    pace yet) or the ratio is in range. *)
Definition pace_calm (reference pace : Q) : Prop :=
  0 < reference -> ratio_in_range reference pace.

(** Successive calls of [detect] on one instance, one per
    [(elapsed_distance, pace)] sample, with their outcomes in order. *)
Fixpoint feed (self : DetectorState) (samples : list (Q * Q))
  : option (list Outcome) :=
  match samples with
  | [] => Some []
  | (elapsed_distance, pace) :: rest =>
      o <- detect self elapsed_distance pace ;;
      os <- feed (state o) rest ;;
      Some (o :: os)
  end.

(** The instance after the calls whose outcomes are [os]. *)
Definition last_state (self : DetectorState) (os : list Outcome)
  : DetectorState :=
  fold_left (fun _ o => state o) os self.

(** Along a run of paces each one is calm against the one before it, the
    first against [reference]. *)
Fixpoint calm_chain (reference : Q) (paces : list Q) : Prop :=
  match paces with
  | [] => True
  | pace :: rest => pace_calm reference pace /\ calm_chain pace rest
  end.

(** Two events carry the same sample: they may differ in
    [elapsed_time_ms], [anomaly_type] and their note. *)
Definition same_sample (event1 event2 : PaceEvent) : Prop :=
  distance_m event1 = distance_m event2
  /\ calculated_pace event1 = calculated_pace event2.

(** The [(elapsed_distance, pace)] pair line 94 passes to [detect]. *)
Definition sample_of (event : PaceEvent) : Q * Q :=
  (distance_m event, calculated_pace event).

(** The pace axis suppresses: an accepted pace exists, the ratio is an
    excursion, and the incremented spike count reaches three. *)
Definition pace_suppresses (self : DetectorState) (pace : Q) : Prop :=
  0 < last_valid_pace self
  /\ ratio_spikes (last_valid_pace self) pace
  /\ (3 <= S (pace_anomaly_count self))%nat.

(** No pace accepted yet and no spike counted, or an accepted pace inside
    the validator bounds. *)
Definition accepted_pace_ok (self : DetectorState) : Prop :=
  (last_valid_pace self == 0 /\ pace_anomaly_count self = 0%nat)
  \/ pace_in_bounds (last_valid_pace self).

(** Along a run of distances each one is at least a millimetre from the one
    before it, the first from [reference]. *)
Fixpoint moving_chain (reference : Q) (distances : list Q) : Prop :=
  match distances with
  | [] => True
  | d :: rest => ~ Qabs (d - reference) < 0.001 /\ moving_chain d rest
  end.

(** The number of suppressed rows of a scenario. *)
Definition suppressed (rows : list (bool * list Reason)) : nat :=
  List.length (filter (fun row => negb (fst row)) rows).

(** The time of the first [trkpt] that has one. *)
Fixpoint first_time (trkpts : list AnalyzeGpx.TrkPt) : option Q :=
  match trkpts with
  | [] => None
  | trkpt :: rest =>
      match AnalyzeGpx.trk_time trkpt with
      | Some t => Some t
      | None => first_time rest
      end
  end.

(** The start time in force once the loop has run over [trkpts] from
    [st]. *)
Definition start_in_force (st : AnalyzeGpx.Extraction)
           (trkpts : list AnalyzeGpx.TrkPt) : option Q :=
  match AnalyzeGpx.start_time st with
  | Some s => Some s
  | None => first_time trkpts
  end.

(** A trackpoint carries what its [trkpt] element holds, with its time
    counted from [start]. *)
Definition carries (start : option Q)
           (trkpt : AnalyzeGpx.TrkPt) (pt : AnalyzeGpx.Trackpoint) : Prop :=
  AnalyzeGpx.timestamp pt = AnalyzeGpx.trk_time trkpt
  /\ AnalyzeGpx.lat pt = AnalyzeGpx.trk_lat trkpt
  /\ AnalyzeGpx.lon pt = AnalyzeGpx.trk_lon trkpt
  /\ AnalyzeGpx.heart_rate pt = AnalyzeGpx.trk_hr trkpt
  /\ AnalyzeGpx.cadence pt = AnalyzeGpx.trk_cad trkpt
  /\ AnalyzeGpx.elapsed_sec pt
     = match AnalyzeGpx.trk_time trkpt, start with
       | Some t, Some s => t - s
       | _, _ => 0
       end
  /\ AnalyzeGpx.elapsed_cs pt = AnalyzeGpx.elapsed_sec pt * 100.

(** The test of line 139 on a trackpoint. *)
Definition at_hundred_metres (pt : AnalyzeGpx.Trackpoint) : Prop :=
  100 <= AnalyzeGpx.distance_m pt
  /\ (Py.int (AnalyzeGpx.distance_m pt) mod 100 = 0)%Z.

(** The key line 202 minimises. *)
Definition gap (target_dist : Q) (pt : AnalyzeGpx.Trackpoint) : Q :=
  Qabs (AnalyzeGpx.distance_m pt - target_dist).

End Vocabulary.

(** ** Facts about the Python operations *)

Lemma lt_true_iff (a b : Q) : Py.lt a b = true <-> a < b.
Proof.
  unfold Py.lt. rewrite negb_true_iff. split; intro H.
  - apply Qnot_le_lt. intro Hle. apply Qle_bool_iff in Hle. congruence.
  - destruct (Qle_bool b a) eqn:E; [|reflexivity].
    apply Qle_bool_iff in E. exfalso. exact (Qlt_not_le _ _ H E).
Qed.

Lemma lt_false_iff (a b : Q) : Py.lt a b = false <-> b <= a.
Proof.
  unfold Py.lt. rewrite negb_false_iff. apply Qle_bool_iff.
Qed.

Lemma gt_true_iff (a b : Q) : Py.gt a b = true <-> b < a.
Proof. apply lt_true_iff. Qed.

Lemma gt_false_iff (a b : Q) : Py.gt a b = false <-> a <= b.
Proof. apply lt_false_iff. Qed.

Lemma le_true_iff (a b : Q) : Py.le a b = true <-> a <= b.
Proof. apply Qle_bool_iff. Qed.

Lemma le_false_iff (a b : Q) : Py.le a b = false <-> b < a.
Proof.
  unfold Py.le. split; intro H.
  - apply Qnot_le_lt. intro Hle. apply Qle_bool_iff in Hle. congruence.
  - destruct (Qle_bool a b) eqn:E; [|reflexivity].
    apply Qle_bool_iff in E. exfalso. exact (Qlt_not_le _ _ H E).
Qed.

Lemma ge_true_iff (a b : Q) : Py.ge a b = true <-> b <= a.
Proof. apply Qle_bool_iff. Qed.

Lemma div_nonzero (a b : Q) : ~ b == 0 -> Py.div a b = Some (a / b).
Proof.
  intro H. unfold Py.div. destruct (Qeq_bool b 0) eqn:E; [|reflexivity].
  apply Qeq_bool_iff in E. contradiction.
Qed.

Lemma div_positive (a b : Q) : 0 < b -> Py.div a b = Some (a / b).
Proof.
  intro H. apply div_nonzero. intro E. rewrite E in H.
  exact (Qlt_irrefl _ H).
Qed.

Lemma div_by_zero (a : Q) : Py.div a 0 = None.
Proof. reflexivity. Qed.

(** The validator test of line 50, as a proposition. *)
Lemma insane_test_true (pace : Q) :
  Py.lt pace Detector.MIN_REASONABLE_PACE
  || Py.gt pace Detector.MAX_REASONABLE_PACE = true
  <-> pace < Detector.MIN_REASONABLE_PACE
      \/ Detector.MAX_REASONABLE_PACE < pace.
Proof.
  rewrite orb_true_iff, lt_true_iff, gt_true_iff. reflexivity.
Qed.

Lemma insane_test_false (pace : Q) :
  Py.lt pace Detector.MIN_REASONABLE_PACE
  || Py.gt pace Detector.MAX_REASONABLE_PACE = false
  <-> pace_in_bounds pace.
Proof.
  unfold pace_in_bounds.
  rewrite orb_false_iff, lt_false_iff, gt_false_iff. reflexivity.
Qed.

(** The excursion test of line 69, as a proposition. *)
Lemma spike_test_true (ratio : Q) :
  Py.gt ratio 2.0 || Py.lt ratio 0.5 = true <-> 2.0 < ratio \/ ratio < 0.5.
Proof.
  rewrite orb_true_iff, lt_true_iff, gt_true_iff. reflexivity.
Qed.

Lemma spike_test_false (ratio : Q) :
  Py.gt ratio 2.0 || Py.lt ratio 0.5 = false <-> 0.5 <= ratio /\ ratio <= 2.0.
Proof.
  rewrite orb_false_iff, lt_false_iff, gt_false_iff. tauto.
Qed.

(** The guard of line 67, as a proposition. *)
Lemma accepted_pace_test_true (x : Q) : Py.gt x 0.0 = true <-> 0 < x.
Proof.
  rewrite gt_true_iff. assert (E : 0.0 == 0) by reflexivity.
  rewrite E. reflexivity.
Qed.

Lemma accepted_pace_test_false (x : Q) : Py.gt x 0.0 = false <-> x <= 0.
Proof.
  rewrite gt_false_iff. assert (E : 0.0 == 0) by reflexivity.
  rewrite E. reflexivity.
Qed.

(** The stagnation test of line 55, as a proposition. *)
Lemma stagnant_test_true (self : Detector.DetectorState) (d : Q) :
  Py.lt (Qabs (d - Detector.last_valid_distance self)) 0.001 = true
  <-> stagnant self d.
Proof. apply lt_true_iff. Qed.

Lemma stagnant_test_false (self : Detector.DetectorState) (d : Q) :
  Py.lt (Qabs (d - Detector.last_valid_distance self)) 0.001 = false
  <-> ~ stagnant self d.
Proof.
  unfold stagnant. rewrite lt_false_iff. split; intro H.
  - apply Qle_not_lt. exact H.
  - apply Qnot_lt_le. exact H.
Qed.

Lemma in_bounds_positive (pace : Q) : pace_in_bounds pace -> 0 < pace.
Proof.
  intros [Hlo _]. apply Qlt_le_trans with (y := Detector.MIN_REASONABLE_PACE).
  - reflexivity.
  - exact Hlo.
Qed.

(** ** The paths through [detect] *)

Section DetectPaths.
Import Detector.

Variable self : DetectorState.
Variables elapsed_distance pace : Q.

(** Lines 50-52. *)
Lemma detect_insane :
  pace < MIN_REASONABLE_PACE \/ MAX_REASONABLE_PACE < pace ->
  detect self elapsed_distance pace
  = Some (mkOutcome false [InsanePace pace] self).
Proof.
  intro H. apply insane_test_true in H. unfold detect. rewrite H.
  reflexivity.
Qed.

(** Lines 55-61 when the incremented count reaches the threshold. *)
Lemma detect_frozen :
  pace_in_bounds pace ->
  stagnant self elapsed_distance ->
  (FIT_STAGNATION_THRESHOLD <= S (distance_stagnation_count self))%nat ->
  detect self elapsed_distance pace
  = Some (mkOutcome false
            [DistanceStagnation (S (distance_stagnation_count self));
             DistanceFrozen]
            (set_distance_stagnation_count
               self (S (distance_stagnation_count self)))).
Proof.
  intros Hb Hs Hn. apply insane_test_false in Hb.
  apply stagnant_test_true in Hs. apply Nat.leb_le in Hn.
  unfold detect. rewrite Hb, Hs. cbv zeta.
  cbn [distance_stagnation_count set_distance_stagnation_count].
  rewrite Hn. reflexivity.
Qed.

(** Lines 55-57 when the incremented count stays below the threshold. *)
Lemma detect_stagnating :
  pace_in_bounds pace ->
  stagnant self elapsed_distance ->
  (S (distance_stagnation_count self) < FIT_STAGNATION_THRESHOLD)%nat ->
  detect self elapsed_distance pace
  = pace_consistency
      (set_distance_stagnation_count
         self (S (distance_stagnation_count self)))
      [DistanceStagnation (S (distance_stagnation_count self))]
      pace.
Proof.
  intros Hb Hs Hn. apply insane_test_false in Hb.
  apply stagnant_test_true in Hs. apply Nat.leb_gt in Hn.
  unfold detect. rewrite Hb, Hs. cbv zeta.
  cbn [distance_stagnation_count set_distance_stagnation_count].
  rewrite Hn. reflexivity.
Qed.

(** Lines 62-64. *)
Lemma detect_moving :
  pace_in_bounds pace ->
  ~ stagnant self elapsed_distance ->
  detect self elapsed_distance pace
  = pace_consistency
      (set_last_valid_distance
         (set_distance_stagnation_count self 0) elapsed_distance)
      [] pace.
Proof.
  intros Hb Hs. apply insane_test_false in Hb.
  apply stagnant_test_false in Hs.
  unfold detect. rewrite Hb, Hs. reflexivity.
Qed.

Variable expl : list Reason.

(** Line 67 false: no accepted pace yet. *)
Lemma pace_consistency_first :
  last_valid_pace self <= 0 ->
  pace_consistency self expl pace = accept self expl pace.
Proof.
  intro H. apply accepted_pace_test_false in H.
  unfold pace_consistency. rewrite H. reflexivity.
Qed.

(** Lines 76-77. *)
Lemma pace_consistency_calm :
  0 < last_valid_pace self ->
  ratio_in_range (last_valid_pace self) pace ->
  pace_consistency self expl pace
  = accept (set_pace_anomaly_count self 0) expl pace.
Proof.
  intros Hp Hr. unfold pace_consistency.
  rewrite (proj2 (accepted_pace_test_true _) Hp).
  rewrite (div_positive _ _ Hp). cbn [Py.bind].
  rewrite (proj2 (spike_test_false _) Hr). reflexivity.
Qed.

(** Lines 69-71 when the incremented count stays below three. *)
Lemma pace_consistency_spike :
  0 < last_valid_pace self ->
  ratio_spikes (last_valid_pace self) pace ->
  (S (pace_anomaly_count self) < 3)%nat ->
  pace_consistency self expl pace
  = accept (set_pace_anomaly_count self (S (pace_anomaly_count self)))
           (expl ++ [PaceSpike (pace / last_valid_pace self)
                               (S (pace_anomaly_count self))])
           pace.
Proof.
  intros Hp Hr Hn. unfold pace_consistency.
  rewrite (proj2 (accepted_pace_test_true _) Hp).
  rewrite (div_positive _ _ Hp). cbn [Py.bind].
  rewrite (proj2 (spike_test_true _) Hr). cbv zeta.
  cbn [pace_anomaly_count set_pace_anomaly_count].
  apply Nat.leb_gt in Hn. rewrite Hn. reflexivity.
Qed.

(** Lines 69-75 when the incremented count reaches three. *)
Lemma pace_consistency_volatile :
  0 < last_valid_pace self ->
  ratio_spikes (last_valid_pace self) pace ->
  (3 <= S (pace_anomaly_count self))%nat ->
  pace_consistency self expl pace
  = Some (mkOutcome false
            (expl ++ [PaceSpike (pace / last_valid_pace self)
                                (S (pace_anomaly_count self))]
                  ++ [MultiplePaceSpikes])
            (set_pace_anomaly_count self (S (pace_anomaly_count self)))).
Proof.
  intros Hp Hr Hn. unfold pace_consistency.
  rewrite (proj2 (accepted_pace_test_true _) Hp).
  rewrite (div_positive _ _ Hp). cbn [Py.bind].
  rewrite (proj2 (spike_test_true _) Hr). cbv zeta.
  cbn [pace_anomaly_count set_pace_anomaly_count].
  apply Nat.leb_le in Hn. rewrite Hn. rewrite <- app_assoc. reflexivity.
Qed.

End DetectPaths.

(** ** What every call of the pace axis and of [detect] leaves behind *)

Section Outcomes.
Import Detector.

(** The distance axis either sees stagnation or does not. *)
Lemma stagnant_dec (self : DetectorState) (d : Q) :
  {stagnant self d} + {~ stagnant self d}.
Proof.
  unfold stagnant.
  destruct (Qlt_le_dec (Qabs (d - last_valid_distance self)) 0.001)
    as [H | H].
  - left. exact H.
  - right. apply Qle_not_lt. exact H.
Qed.

(** The ratio is an excursion or it is in range. *)
Lemma ratio_dec (reference pace : Q) :
  {ratio_spikes reference pace} + {ratio_in_range reference pace}.
Proof.
  unfold ratio_spikes, ratio_in_range.
  destruct (Qlt_le_dec 2.0 (pace / reference)) as [H | H].
  - left. left. exact H.
  - destruct (Qlt_le_dec (pace / reference) 0.5) as [H' | H'].
    + left. right. exact H'.
    + right. split; assumption.
Qed.

(** The pace axis returns, never touches the distance fields, accepts the
    pace exactly when it shows, and suppresses only from an accepted
    pace. *)
Lemma pace_consistency_outcome (self : DetectorState)
      (expl : list Reason) (pace : Q) :
  exists o,
    pace_consistency self expl pace = Some o
    /\ last_valid_distance (state o) = last_valid_distance self
    /\ distance_stagnation_count (state o) = distance_stagnation_count self
    /\ (should_show o = true -> last_valid_pace (state o) = pace)
    /\ (should_show o = false ->
        last_valid_pace (state o) = last_valid_pace self
        /\ 0 < last_valid_pace self
        /\ pace_anomaly_count (state o) = S (pace_anomaly_count self)).
Proof.
  destruct (Qlt_le_dec 0 (last_valid_pace self)) as [Hp | Hp].
  - destruct (ratio_dec (last_valid_pace self) pace) as [Hr | Hr].
    + destruct (le_lt_dec 3 (S (pace_anomaly_count self))) as [Hn | Hn].
      * rewrite (pace_consistency_volatile _ _ _ Hp Hr Hn).
        eexists. split; [reflexivity|]. cbn. intuition discriminate.
      * rewrite (pace_consistency_spike _ _ _ Hp Hr Hn).
        eexists. split; [reflexivity|]. cbn. intuition discriminate.
    + rewrite (pace_consistency_calm _ _ _ Hp Hr).
      eexists. split; [reflexivity|]. cbn. intuition discriminate.
  - rewrite (pace_consistency_first _ _ _ Hp).
    eexists. split; [reflexivity|]. cbn. intuition discriminate.
Qed.

(** [detect] returns; it accepts the pace exactly when it shows. *)
Lemma detect_outcome (self : DetectorState) (elapsed_distance pace : Q) :
  exists o,
    detect self elapsed_distance pace = Some o
    /\ (should_show o = true -> last_valid_pace (state o) = pace)
    /\ (should_show o = false ->
        last_valid_pace (state o) = last_valid_pace self).
Proof.
  destruct (Qlt_le_dec pace MIN_REASONABLE_PACE) as [Hlo | Hlo].
  { rewrite detect_insane by (left; exact Hlo).
    eexists. split; [reflexivity|]. cbn. intuition discriminate. }
  destruct (Qlt_le_dec MAX_REASONABLE_PACE pace) as [Hhi | Hhi].
  { rewrite detect_insane by (right; exact Hhi).
    eexists. split; [reflexivity|]. cbn. intuition discriminate. }
  assert (Hb : pace_in_bounds pace) by (split; assumption).
  destruct (stagnant_dec self elapsed_distance) as [Hs | Hs].
  - destruct (le_lt_dec FIT_STAGNATION_THRESHOLD
                        (S (distance_stagnation_count self))) as [Hn | Hn].
    + rewrite (detect_frozen _ _ _ Hb Hs Hn).
      eexists. split; [reflexivity|]. cbn. intuition discriminate.
    + rewrite (detect_stagnating _ _ _ Hb Hs Hn).
      destruct (pace_consistency_outcome
                  (set_distance_stagnation_count
                     self (S (distance_stagnation_count self)))
                  [DistanceStagnation (S (distance_stagnation_count self))]
                  pace)
        as (o & Ho & _ & _ & Ht & Hf).
      exists o. split; [exact Ho|]. split; [exact Ht|].
      intro E. destruct (Hf E) as (Hl & _). exact Hl.
  - rewrite (detect_moving _ _ _ Hb Hs).
    destruct (pace_consistency_outcome
                (set_last_valid_distance
                   (set_distance_stagnation_count self 0) elapsed_distance)
                [] pace)
      as (o & Ho & _ & _ & Ht & Hf).
    exists o. split; [exact Ho|]. split; [exact Ht|].
    intro E. destruct (Hf E) as (Hl & _). exact Hl.
Qed.

(** A sample the validator and the distance axis let through reaches the
    pace axis with the pace fields as they were. *)
Lemma detect_reaches_pace_axis (self : DetectorState)
      (elapsed_distance pace : Q) :
  pace_in_bounds pace ->
  distance_passes self elapsed_distance ->
  exists self' expl,
    detect self elapsed_distance pace = pace_consistency self' expl pace
    /\ last_valid_pace self' = last_valid_pace self
    /\ pace_anomaly_count self' = pace_anomaly_count self.
Proof.
  intros Hb Hd.
  destruct (stagnant_dec self elapsed_distance) as [Hs | Hs].
  - rewrite (detect_stagnating _ _ _ Hb Hs (Hd Hs)).
    eexists. eexists. split; [reflexivity|]. split; reflexivity.
  - rewrite (detect_moving _ _ _ Hb Hs).
    eexists. eexists. split; [reflexivity|]. split; reflexivity.
Qed.

End Outcomes.

(** ** Runs of calls *)

Section Runs.
Import Detector.

Lemma feed_app (a b : list (Q * Q)) : forall self,
  feed self (a ++ b)
  = (os <- feed self a ;;
     os' <- feed (last_state self os) b ;;
     Some (os ++ os')).
Proof.
  induction a as [| [d p] a IH]; intro self.
  - cbn. destruct (feed self b); reflexivity.
  - cbn [app feed]. destruct (detect self d p) as [o |]; [|reflexivity].
    cbn [Py.bind]. rewrite IH.
    destruct (feed (state o) a) as [os |]; [|reflexivity].
    cbn [Py.bind last_state fold_left].
    fold (last_state (state o) os).
    destruct (feed (last_state (state o) os) b); reflexivity.
Qed.

Lemma stagnant_same_distance (s1 s2 : DetectorState) (d : Q) :
  last_valid_distance s1 = last_valid_distance s2 ->
  stagnant s1 d -> stagnant s2 d.
Proof. unfold stagnant. intros E H. rewrite <- E. exact H. Qed.

(** Lines 55-57 then 66-81 on a calm pace: the sample is shown, the
    stagnation count goes up by one, the distance stays, the pace is
    accepted. *)
Lemma stagnating_step (self : DetectorState) (d p : Q) :
  pace_in_bounds p ->
  stagnant self d ->
  (S (distance_stagnation_count self) < FIT_STAGNATION_THRESHOLD)%nat ->
  pace_calm (last_valid_pace self) p ->
  exists o,
    detect self d p = Some o
    /\ should_show o = true
    /\ last_valid_distance (state o) = last_valid_distance self
    /\ distance_stagnation_count (state o)
       = S (distance_stagnation_count self)
    /\ last_valid_pace (state o) = p.
Proof.
  intros Hb Hs Hn Hc. rewrite (detect_stagnating _ _ _ Hb Hs Hn).
  destruct (Qlt_le_dec 0 (last_valid_pace self)) as [Hp | Hp].
  - rewrite pace_consistency_calm by (cbn; auto).
    eexists. split; [reflexivity|]. cbn. auto.
  - rewrite pace_consistency_first by (cbn; auto).
    eexists. split; [reflexivity|]. cbn. auto.
Qed.

(** A run of stagnant, calm samples that stays below the threshold is
    shown throughout. *)
Lemma stagnating_run (samples : list (Q * Q)) : forall self,
  Forall (fun s => stagnant self (fst s) /\ pace_in_bounds (snd s))
         samples ->
  calm_chain (last_valid_pace self) (map snd samples) ->
  (distance_stagnation_count self + List.length samples
   < FIT_STAGNATION_THRESHOLD)%nat ->
  exists os,
    feed self samples = Some os
    /\ map should_show os = repeat true (List.length samples)
    /\ Forall (fun o => last_valid_distance (state o)
                        = last_valid_distance self) os
    /\ last_valid_distance (last_state self os) = last_valid_distance self
    /\ distance_stagnation_count (last_state self os)
       = (distance_stagnation_count self + List.length samples)%nat.
Proof.
  induction samples as [| [d p] rest IH]; intros self Hall Hchain Hlen.
  - exists []. cbn. rewrite Nat.add_0_r. auto.
  - inversion Hall as [| x l [Hs Hb] Hrest]; subst. cbn in Hs, Hb.
    destruct Hchain as [Hc Hchain]. cbn [List.length] in Hlen.
    destruct (stagnating_step self d p Hb Hs ltac:(lia) Hc)
      as (o & Ho & Hshow & Hd & Hn & Hp).
    destruct (IH (state o)) as (os & Hos & Hshows & Hds & Hld & Hln).
    + eapply Forall_impl; [|exact Hrest]. cbn. intros s [H1 H2].
      split; [|exact H2].
      apply (stagnant_same_distance self); [symmetry; exact Hd | exact H1].
    + rewrite Hp. exact Hchain.
    + rewrite Hn. lia.
    + exists (o :: os). cbn [feed]. rewrite Ho. cbn [Py.bind].
      rewrite Hos. cbn [Py.bind]. split; [reflexivity|].
      cbn [map List.length repeat last_state fold_left].
      fold (last_state (state o) os).
      rewrite Hshow, Hshows. split; [reflexivity|]. split.
      * constructor; [exact Hd|].
        eapply Forall_impl; [|exact Hds]. cbn. intros o' E.
        rewrite E. exact Hd.
      * rewrite Hld, Hln, Hd, Hn. split; [reflexivity | lia].
Qed.

End Runs.

(** ** The detector: distance axis *)

Section DistanceAxis.
Import Detector.

(** C1.  From a state whose stagnation count is 0, five consecutive
    samples within 0.001 of [last_valid_distance], each with a pace the
    validator lets through and calm against the pace accepted before it,
    are answered show, show, show, show, suppress, and none of the five
    calls changes [last_valid_distance]. *)
Theorem five_stagnant_samples_suppress_on_fifth
        (self : DetectorState) (samples : list (Q * Q)) :
  distance_stagnation_count self = 0%nat ->
  List.length samples = 5%nat ->
  Forall (fun s => stagnant self (fst s) /\ pace_in_bounds (snd s))
         samples ->
  calm_chain (last_valid_pace self) (map snd samples) ->
  exists os,
    feed self samples = Some os
    /\ map should_show os = [true; true; true; true; false]
    /\ Forall (fun o => last_valid_distance (state o)
                        = last_valid_distance self) os.
Proof.
  intros Hzero Hlen Hall Hchain.
  destruct samples as [| s1 [| s2 [| s3 [| s4 [| s5 [| s6 rest]]]]]];
    try discriminate Hlen.
  change [s1; s2; s3; s4; s5] with ([s1; s2; s3; s4] ++ [s5]) in *.
  apply Forall_app in Hall. destruct Hall as [Hfour Hfifth].
  destruct (stagnating_run [s1; s2; s3; s4] self Hfour)
    as (os & Hos & Hshows & Hds & Hld & Hln).
  { cbn in Hchain |- *. tauto. }
  { rewrite Hzero. unfold FIT_STAGNATION_THRESHOLD. cbn. lia. }
  inversion Hfifth as [| x l [Hs Hb] _]; subst.
  destruct s5 as [d5 p5]. cbn in Hs, Hb.
  assert (Hs' : stagnant (last_state self os) d5).
  { apply (stagnant_same_distance self); [symmetry; exact Hld | exact Hs]. }
  assert (Hn : (FIT_STAGNATION_THRESHOLD
                <= S (distance_stagnation_count (last_state self os)))%nat).
  { rewrite Hln, Hzero. unfold FIT_STAGNATION_THRESHOLD. cbn. lia. }
  eexists. rewrite feed_app, Hos. cbn [Py.bind feed].
  rewrite (detect_frozen _ _ _ Hb Hs' Hn). cbn [Py.bind].
  split; [reflexivity|]. split.
  - rewrite map_app, Hshows. reflexivity.
  - apply Forall_app. split; [exact Hds|].
    constructor; [|constructor]. cbn. exact Hld.
Qed.

(** C8.  When the distance axis suppresses (the distance is within 0.001
    of [last_valid_distance] and the incremented stagnation count reaches
    5), the call returns from the distance axis: the explanation holds the
    two distance entries and nothing from the pace axis, and
    [pace_anomaly_count] and [last_valid_pace] are as before the call. *)
Theorem distance_freeze_skips_pace_axis
        (self : DetectorState) (elapsed_distance pace : Q) :
  pace_in_bounds pace ->
  stagnant self elapsed_distance ->
  (FIT_STAGNATION_THRESHOLD <= S (distance_stagnation_count self))%nat ->
  exists o,
    detect self elapsed_distance pace = Some o
    /\ should_show o = false
    /\ explanation o
       = [DistanceStagnation (S (distance_stagnation_count self));
          DistanceFrozen]
    /\ pace_anomaly_count (state o) = pace_anomaly_count self
    /\ last_valid_pace (state o) = last_valid_pace self.
Proof.
  intros Hb Hs Hn. rewrite (detect_frozen _ _ _ Hb Hs Hn).
  eexists. split; [reflexivity|]. cbn. auto.
Qed.

End DistanceAxis.

(** ** The detector: validator *)

Section Validator.
Import Detector.

(** C4.  A pace strictly below 0.05 or strictly above 20.0 is answered
    with show = false and the out-of-bounds reason alone, and the four
    fields of the state are what they were. *)
Theorem insane_pace_rejected_state_unchanged
        (self : DetectorState) (elapsed_distance pace : Q) :
  pace < MIN_REASONABLE_PACE \/ MAX_REASONABLE_PACE < pace ->
  exists o,
    detect self elapsed_distance pace = Some o
    /\ should_show o = false
    /\ explanation o = [InsanePace pace]
    /\ last_valid_distance (state o) = last_valid_distance self
    /\ distance_stagnation_count (state o) = distance_stagnation_count self
    /\ last_valid_pace (state o) = last_valid_pace self
    /\ pace_anomaly_count (state o) = pace_anomaly_count self.
Proof.
  intro H. rewrite (detect_insane _ _ _ H).
  eexists. split; [reflexivity|]. cbn. repeat split.
Qed.

End Validator.

(** ** Closed instances *)

(** Decides a closed statement built from comparisons of rationals and
    naturals by evaluating it. *)
Ltac evaluate_closed :=
  vm_compute;
  repeat match goal with
         | |- _ /\ _ => split
         | |- _ \/ _ => (left; reflexivity) || (right; reflexivity)
         | |- Forall _ _ => constructor
         | |- _ -> _ => intro
         | |- _ = _ => reflexivity
         | |- True => exact I
         | H : _ = _ |- _ => discriminate H
         | |- (_ <= _)%nat => lia
         | |- (_ < _)%nat => lia
         end.

Section DistanceAxisInstances.
Import Detector.

(** The freeze scenario of [test_fit_distance_freeze] after its first
    event, with the stagnation count at 0. *)
Lemma five_stagnant_samples_witness :
  exists os,
    feed (mkState 1539.78 0 0.385 0)
         [(1539.78, 0.392); (1539.78, 0.400); (1539.78, 0.408);
          (1539.78, 0.417); (1539.78, 0.426)]
    = Some os
    /\ map should_show os = [true; true; true; true; false]
    /\ Forall (fun o => last_valid_distance (state o) = 1539.78) os.
Proof.
  apply (five_stagnant_samples_suppress_on_fifth
           (mkState 1539.78 0 0.385 0)
           [(1539.78, 0.392); (1539.78, 0.400); (1539.78, 0.408);
            (1539.78, 0.417); (1539.78, 0.426)]).
  - reflexivity.
  - reflexivity.
  - repeat constructor; evaluate_closed.
  - evaluate_closed.
Defined.

(** The sixth event of the same scenario: the count stands at 4. *)
Lemma distance_freeze_witness :
  exists o,
    detect (mkState 1539.78 4 0.417 0) 1539.78 0.426 = Some o
    /\ should_show o = false
    /\ explanation o = [DistanceStagnation 5; DistanceFrozen]
    /\ pace_anomaly_count (state o) = 0%nat
    /\ last_valid_pace (state o) = 0.417.
Proof.
  apply (distance_freeze_skips_pace_axis
           (mkState 1539.78 4 0.417 0) 1539.78 0.426);
    evaluate_closed.
Defined.

(** The two events of [test_impossible_pace]. *)
Lemma insane_pace_witness :
  (exists o,
      detect init 1000.00 0.030 = Some o
      /\ should_show o = false
      /\ explanation o = [InsanePace 0.030]
      /\ last_valid_distance (state o) = 0.0
      /\ distance_stagnation_count (state o) = 0%nat
      /\ last_valid_pace (state o) = 0.0
      /\ pace_anomaly_count (state o) = 0%nat)
  /\ (exists o,
         detect init 2000.00 25.0 = Some o
         /\ should_show o = false
         /\ explanation o = [InsanePace 25.0]
         /\ last_valid_distance (state o) = 0.0
         /\ distance_stagnation_count (state o) = 0%nat
         /\ last_valid_pace (state o) = 0.0
         /\ pace_anomaly_count (state o) = 0%nat).
Proof.
  split.
  - apply (insane_pace_rejected_state_unchanged init 1000.00 0.030).
    evaluate_closed.
  - apply (insane_pace_rejected_state_unchanged init 2000.00 25.0).
    evaluate_closed.
Defined.

End DistanceAxisInstances.

(** ** The detector: pace axis *)

Section PaceAxis.
Import Detector.

(** An excursion that reaches the pace axis: the spike count goes up by
    one whether or not the call suppresses, the accepted pace stays
    positive, and once the incremented count reaches three the call
    suppresses and keeps [last_valid_pace]. *)
Lemma spike_step (self : DetectorState) (d p : Q) :
  pace_in_bounds p ->
  distance_passes self d ->
  0 < last_valid_pace self ->
  ratio_spikes (last_valid_pace self) p ->
  exists o,
    detect self d p = Some o
    /\ pace_anomaly_count (state o) = S (pace_anomaly_count self)
    /\ 0 < last_valid_pace (state o)
    /\ ((3 <= S (pace_anomaly_count self))%nat ->
        should_show o = false
        /\ last_valid_pace (state o) = last_valid_pace self)
    /\ ((S (pace_anomaly_count self) < 3)%nat ->
        should_show o = true /\ last_valid_pace (state o) = p).
Proof.
  intros Hb Hd Hp Hr.
  destruct (detect_reaches_pace_axis self d p Hb Hd)
    as (self' & expl & Hdet & Hlp & Hpc).
  rewrite Hdet. rewrite <- Hlp in Hp, Hr.
  destruct (le_lt_dec 3 (S (pace_anomaly_count self'))) as [Hn | Hn].
  - rewrite (pace_consistency_volatile _ _ _ Hp Hr Hn).
    eexists. split; [reflexivity|]. cbn. rewrite <- Hpc, <- Hlp.
    repeat split; auto; lia.
  - rewrite (pace_consistency_spike _ _ _ Hp Hr Hn).
    eexists. split; [reflexivity|]. cbn. rewrite <- Hpc.
    repeat split; auto using in_bounds_positive; lia.
Qed.

(** A ratio in range that reaches the pace axis: shown, the spike count
    back at zero, the pace accepted. *)
Lemma calm_step (self : DetectorState) (d p : Q) :
  pace_in_bounds p ->
  distance_passes self d ->
  0 < last_valid_pace self ->
  ratio_in_range (last_valid_pace self) p ->
  exists o,
    detect self d p = Some o
    /\ should_show o = true
    /\ pace_anomaly_count (state o) = 0%nat
    /\ last_valid_pace (state o) = p.
Proof.
  intros Hb Hd Hp Hr.
  destruct (detect_reaches_pace_axis self d p Hb Hd)
    as (self' & expl & Hdet & Hlp & Hpc).
  rewrite Hdet. rewrite <- Hlp in Hp, Hr.
  rewrite (pace_consistency_calm _ _ _ Hp Hr).
  eexists. split; [reflexivity|]. cbn. auto.
Qed.

(** C2.  Let [o1] and [o2] be the outcomes of two successive calls from a
    state with [last_valid_pace > 0], and let each of three successive
    samples have a pace inside the validator bounds, a distance that does
    not suppress, and a ratio against the then current [last_valid_pace]
    above 2.0 or below 0.5.  Then the third call returns show = false and
    leaves [last_valid_pace] as it found it.  And any sample that reaches
    the pace axis with a ratio in [0.5, 2.0] leaves [pace_anomaly_count]
    at 0. *)
Theorem three_pace_spikes_suppress_on_third
        (self : DetectorState) (d1 p1 d2 p2 d3 p3 : Q) (o1 o2 : Outcome)
        (self' : DetectorState) (d' p' : Q) :
  0 < last_valid_pace self ->
  detect self d1 p1 = Some o1 ->
  detect (state o1) d2 p2 = Some o2 ->
  pace_in_bounds p1 -> pace_in_bounds p2 -> pace_in_bounds p3 ->
  distance_passes self d1 ->
  distance_passes (state o1) d2 ->
  distance_passes (state o2) d3 ->
  ratio_spikes (last_valid_pace self) p1 ->
  ratio_spikes (last_valid_pace (state o1)) p2 ->
  ratio_spikes (last_valid_pace (state o2)) p3 ->
  0 < last_valid_pace self' ->
  pace_in_bounds p' ->
  distance_passes self' d' ->
  ratio_in_range (last_valid_pace self') p' ->
  (exists o3,
      detect (state o2) d3 p3 = Some o3
      /\ should_show o3 = false
      /\ last_valid_pace (state o3) = last_valid_pace (state o2))
  /\ (exists o',
         detect self' d' p' = Some o'
         /\ pace_anomaly_count (state o') = 0%nat).
Proof.
  intros Hp H1 H2 Hb1 Hb2 Hb3 Hd1 Hd2 Hd3 Hr1 Hr2 Hr3 Hp' Hb' Hd' Hr'.
  split.
  - destruct (spike_step self d1 p1 Hb1 Hd1 Hp Hr1)
      as (x1 & E1 & Hc1 & Hp1 & _).
    rewrite H1 in E1. injection E1 as <-.
    destruct (spike_step (state o1) d2 p2 Hb2 Hd2 Hp1 Hr2)
      as (x2 & E2 & Hc2 & Hp2 & _).
    rewrite H2 in E2. injection E2 as <-.
    destruct (spike_step (state o2) d3 p3 Hb3 Hd3 Hp2 Hr3)
      as (o3 & E3 & _ & _ & Hsup & _).
    exists o3. split; [exact E3|]. apply Hsup. lia.
  - destruct (calm_step self' d' p' Hb' Hd' Hp' Hr')
      as (o' & E & _ & Hc & _).
    exists o'. split; assumption.
Qed.

(** C7.  A call that shows sets [last_valid_pace] to its pace argument and
    a call that suppresses, on any of the three grounds, leaves it alone;
    in particular a below-threshold excursion is shown, counted, and its
    pace accepted. *)
Theorem last_valid_pace_follows_verdict
        (self : DetectorState) (elapsed_distance pace : Q) :
  exists o,
    detect self elapsed_distance pace = Some o
    /\ (should_show o = true -> last_valid_pace (state o) = pace)
    /\ (should_show o = false ->
        last_valid_pace (state o) = last_valid_pace self)
    /\ (pace_in_bounds pace ->
        distance_passes self elapsed_distance ->
        0 < last_valid_pace self ->
        ratio_spikes (last_valid_pace self) pace ->
        (S (pace_anomaly_count self) < 3)%nat ->
        should_show o = true
        /\ pace_anomaly_count (state o) = S (pace_anomaly_count self)
        /\ last_valid_pace (state o) = pace).
Proof.
  destruct (detect_outcome self elapsed_distance pace)
    as (o & Ho & Ht & Hf).
  exists o. split; [exact Ho|]. split; [exact Ht|]. split; [exact Hf|].
  intros Hb Hd Hp Hr Hn.
  destruct (spike_step self elapsed_distance pace Hb Hd Hp Hr)
    as (x & E & Hc & _ & _ & Hshow).
  rewrite Ho in E. injection E as <-.
  destruct (Hshow Hn) as [Hs Hl]. auto.
Qed.

End PaceAxis.

Section PaceAxisInstances.
Import Detector.

(** Three excursions in a row (ratios 2.5, 0.4, 2.5) from an accepted pace
    of 0.1, and a calm sample met with the spike count at 2. *)
Lemma three_pace_spikes_witness :
  (exists o3,
      detect (mkState 1200 0 0.1 2) 1300 0.25 = Some o3
      /\ should_show o3 = false
      /\ last_valid_pace (state o3) = 0.1)
  /\ (exists o',
         detect (mkState 1000 0 0.1 2) 1100 0.105 = Some o'
         /\ pace_anomaly_count (state o') = 0%nat).
Proof.
  apply (three_pace_spikes_suppress_on_third
           (mkState 1000 0 0.1 0) 1100 0.25 1200 0.1 1300 0.25
           (mkOutcome true [PaceSpike (0.25 / 0.1) 1; Normal]
                      (mkState 1100 0 0.25 1))
           (mkOutcome true [PaceSpike (0.1 / 0.25) 2; Normal]
                      (mkState 1200 0 0.1 2))
           (mkState 1000 0 0.1 2) 1100 0.105);
    evaluate_closed.
Defined.

(** A first excursion (ratio 2.5) is shown, counted, and accepted. *)
Lemma last_valid_pace_witness :
  exists o,
    detect (mkState 1000 0 0.1 0) 1100 0.25 = Some o
    /\ should_show o = true
    /\ pace_anomaly_count (state o) = 1%nat
    /\ last_valid_pace (state o) = 0.25.
Proof.
  destruct (last_valid_pace_follows_verdict
              (mkState 1000 0 0.1 0) 1100 0.25)
    as (o & Ho & _ & _ & H).
  exists o. split; [exact Ho|].
  apply H; evaluate_closed.
Defined.

End PaceAxisInstances.

(** ** The scenario driver *)

Section Driver.
Import Detector.

Lemma evaluate_same_sample (detector : DetectorState)
      (event1 event2 : PaceEvent) :
  same_sample event1 event2 ->
  evaluate detector event1 = evaluate detector event2.
Proof.
  intros [Hd Hp]. unfold evaluate. rewrite Hd, Hp. reflexivity.
Qed.

Lemma run_events_same_samples (events1 events2 : list PaceEvent) :
  Forall2 same_sample events1 events2 ->
  forall detector suppression_count,
    run_events detector suppression_count events1
    = run_events detector suppression_count events2.
Proof.
  induction 1 as [| e1 e2 l1 l2 He Hrest IH]; intros detector n.
  - reflexivity.
  - cbn [run_events]. rewrite (evaluate_same_sample detector e1 e2 He).
    destruct (evaluate detector e2) as [o |]; [|reflexivity].
    cbn [Py.bind]. rewrite IH. reflexivity.
Qed.

(** [test_scenario] makes exactly the calls [feed] makes on the samples of
    its events. *)
Lemma run_events_feed (events : list PaceEvent) :
  forall detector suppression_count,
    option_map (fun r => map fst (fst (fst r)))
               (run_events detector suppression_count events)
    = option_map (map should_show)
                 (feed detector (map sample_of events)).
Proof.
  induction events as [| e rest IH]; intros detector n.
  - reflexivity.
  - cbn [run_events map feed sample_of]. unfold evaluate.
    destruct (detect detector (distance_m e) (calculated_pace e))
      as [o |]; [|reflexivity].
    cbn [Py.bind].
    specialize (IH (state o)
                   (if should_show o then n else S n)).
    destruct (run_events (state o) (if should_show o then n else S n) rest)
      as [[[rows k] final] |];
      destruct (feed (state o) (map sample_of rest)) as [os |];
      cbn in IH |- *; try discriminate IH; [|reflexivity].
    injection IH as IH. rewrite IH. reflexivity.
Qed.

(** C10.  The verdict, the explanation and the state a call leaves behind
    depend on the prior state, the distance and the pace only: two events
    that differ in [elapsed_time_ms] alone get the same outcome, and so do
    two runs whose events differ in [elapsed_time_ms] alone. *)
Theorem detect_ignores_elapsed_time
        (detector : DetectorState) (suppression_count : nat)
        (event1 event2 : PaceEvent) (events1 events2 : list PaceEvent) :
  same_sample event1 event2 ->
  Forall2 same_sample events1 events2 ->
  evaluate detector event1 = evaluate detector event2
  /\ run_events detector suppression_count events1
     = run_events detector suppression_count events2.
Proof.
  intros H1 H2. split.
  - apply evaluate_same_sample. exact H1.
  - apply run_events_same_samples. exact H2.
Qed.

(** The first two events of [test_pace_spike_recovery], once as written
    and once with other time stamps. *)
Lemma detect_ignores_elapsed_time_witness :
  evaluate init (mkEvent 10000 1000.00 0.100 None "Normal pace")
  = evaluate init (mkEvent 99000 1000.00 0.100 None "Normal pace")
  /\ run_events init 0
       [mkEvent 10000 1000.00 0.100 None "Normal pace";
        mkEvent 20000 1050.00 0.105 None "Slight variance OK"]
     = run_events init 0
         [mkEvent 0 1000.00 0.100 None "Normal pace";
          mkEvent 1 1050.00 0.105 None "Slight variance OK"].
Proof.
  apply (detect_ignores_elapsed_time
           init 0
           (mkEvent 10000 1000.00 0.100 None "Normal pace")
           (mkEvent 99000 1000.00 0.100 None "Normal pace")).
  - split; reflexivity.
  - repeat constructor.
Defined.

(** The claim of the spike-recovery scenario fails on the sixth event:
    [test_scenario] shows it. *)
Lemma spike_recovery_sixth_sample_shows :
  exists rows n final,
    test_scenario pace_spike_recovery_events = Some (rows, n, final)
    /\ nth_error rows 5 = Some (true, [Normal])
    /\ ~ (exists expl, nth_error rows 5 = Some (false, expl)).
Proof.
  eexists. eexists. eexists. split; [vm_compute; reflexivity|].
  split; [reflexivity|].
  intros [expl H]. discriminate H.
Qed.

(** C3, amended.  On the seven events of [test_pace_spike_recovery] a
    fresh detector answers show for every event but the fourth.  The
    fourth pace, 0.044, is below the validator's lower bound 0.05, so the
    fourth call is rejected as out of bounds and changes no state; the
    ratios 0.105/0.100, 0.111/0.105, 0.105/0.111, 0.100/0.105 and
    0.105/0.100 that the pace axis sees are all in range, so the spike
    count is 0 after every call and no call suppresses for spikes. *)
Theorem spike_recovery_scenario :
  ~ pace_in_bounds 0.044
  /\ test_scenario pace_spike_recovery_events
     = Some ([ (true, [Normal]); (true, [Normal]); (true, [Normal]);
               (false, [InsanePace 0.044]);
               (true, [Normal]); (true, [Normal]); (true, [Normal]) ],
             1%nat,
             mkState 1050.00 0 0.105 0)
  /\ exists os,
      feed init (map sample_of pace_spike_recovery_events) = Some os
      /\ map should_show os
         = [true; true; true; false; true; true; true]
      /\ Forall (fun o => pace_anomaly_count (state o) = 0%nat) os
      /\ nth_error (map state os) 3 = nth_error (map state os) 2.
Proof.
  split.
  - intros [Hlo _]. vm_compute in Hlo. apply Hlo. reflexivity.
  - split; [vm_compute; reflexivity|].
    eexists. split; [vm_compute; reflexivity|].
    split; [reflexivity|]. split; [|reflexivity].
    repeat constructor.
Qed.

End Driver.

(** ** The 5K estimate of the two analyzers *)

Section Estimates.

(** [analyze_fit.py], lines 104-108: the pace is computed, by a division
    only when the distance is positive. *)
Lemma fit_pace_positive (timer_ms distance_m : Q) :
  0 < distance_m ->
  AnalyzeFit.pace_sec_per_m timer_ms distance_m
  = Some (timer_ms / 1000.0 / distance_m).
Proof.
  intro H. unfold AnalyzeFit.pace_sec_per_m.
  rewrite (proj2 (gt_true_iff _ _) H).
  rewrite div_nonzero by (intro E; discriminate E).
  cbn [Py.bind]. apply div_positive. exact H.
Qed.

Lemma fit_pace_no_distance (timer_ms distance_m : Q) :
  distance_m <= 0 ->
  AnalyzeFit.pace_sec_per_m timer_ms distance_m = Some 0.
Proof.
  intro H. unfold AnalyzeFit.pace_sec_per_m.
  rewrite (proj2 (gt_false_iff _ _) H). reflexivity.
Qed.

(** [analyze_gpx.py], lines 155-159. *)
Lemma gpx_pace_positive (elapsed_sec distance_m : Q) :
  0 < distance_m ->
  AnalyzeGpx.pace_sec_per_m elapsed_sec distance_m
  = Some (elapsed_sec / distance_m).
Proof.
  intro H. unfold AnalyzeGpx.pace_sec_per_m.
  rewrite (proj2 (gt_true_iff _ _) H). apply div_positive. exact H.
Qed.

Lemma gpx_pace_no_distance (elapsed_sec distance_m : Q) :
  distance_m <= 0 ->
  AnalyzeGpx.pace_sec_per_m elapsed_sec distance_m = Some 0.
Proof.
  intro H. unfold AnalyzeGpx.pace_sec_per_m.
  rewrite (proj2 (gt_false_iff _ _) H). reflexivity.
Qed.

(** The guard both scripts share on the pace. *)
Lemma sane_test_true (pace : Q) :
  Py.le 0.05 pace && Py.le pace 20.0 = true <-> 0.05 <= pace <= 20.0.
Proof. rewrite andb_true_iff, !le_true_iff. reflexivity. Qed.

Lemma sane_pace_positive (pace : Q) : 0.05 <= pace -> 0 < pace.
Proof.
  intro H. apply Qlt_le_trans with (y := 0.05); [reflexivity | exact H].
Qed.

(** [analyze_fit.py], lines 110-118: never a negative number. *)
Lemma fit_estimate_nonnegative (distance_m pace : Q) :
  0 <= AnalyzeFit.estimate distance_m pace.
Proof.
  unfold AnalyzeFit.estimate.
  destruct (Py.gt distance_m 100); cbn [andb]; [|apply Qle_refl].
  destruct (Py.le 0.05 pace) eqn:Hlo; cbn [andb]; [|apply Qle_refl].
  destruct (Py.le pace 20.0); [|apply Qle_refl].
  destruct (Py.gt (5000 - distance_m) 0) eqn:Hr; [|apply Qle_refl].
  apply gt_true_iff in Hr. apply le_true_iff in Hlo.
  apply Qmult_le_0_compat.
  - apply Qlt_le_weak. exact Hr.
  - apply Qlt_le_weak. apply sane_pace_positive. exact Hlo.
Qed.

(** [analyze_fit.py], lines 110-118, past the guard of line 111. *)
Lemma fit_estimate_guarded (distance_m pace : Q) :
  100 < distance_m -> 0.05 <= pace <= 20.0 ->
  AnalyzeFit.estimate distance_m pace
  = if Py.gt (5000 - distance_m) 0 then (5000 - distance_m) * pace else 0.
Proof.
  intros Hd Hp. unfold AnalyzeFit.estimate.
  rewrite (proj2 (gt_true_iff _ _) Hd), (proj2 (sane_test_true _) Hp).
  reflexivity.
Qed.

(** [analyze_gpx.py], lines 161-175, past the guard of line 165. *)
Lemma gpx_estimate_guarded (distance_m pace : Q) :
  100 <= distance_m -> 0.05 <= pace <= 20.0 ->
  AnalyzeGpx.estimate distance_m pace
  = if Py.gt (5000 - distance_m) 0 then
      Some (AnalyzeGpx.Shown
              ((5000 - distance_m) * pace)
              (Py.int (inject_Z
                         (Qfloor ((5000 - distance_m) * pace / 60))))
              (Py.int ((5000 - distance_m) * pace
                       - 60 * inject_Z
                                (Qfloor ((5000 - distance_m) * pace / 60)))))
    else Some AnalyzeGpx.Hit.
Proof.
  intros Hd Hp. unfold AnalyzeGpx.estimate.
  rewrite (proj2 (ge_true_iff _ _) Hd), (proj2 (sane_test_true _) Hp).
  cbn [andb]. destruct (Py.gt (5000 - distance_m) 0); reflexivity.
Qed.

(** [analyze_gpx.py], lines 161-181: every branch assigns the two
    columns. *)
Lemma gpx_estimate_total (distance_m pace : Q) :
  exists cell, AnalyzeGpx.estimate distance_m pace = Some cell.
Proof.
  unfold AnalyzeGpx.estimate.
  destruct (Py.ge distance_m 100); cbn [andb negb].
  - destruct (Py.le 0.05 pace && Py.le pace 20.0).
    + destruct (Py.gt (5000 - distance_m) 0); eexists; reflexivity.
    + eexists; reflexivity.
  - eexists; reflexivity.
Qed.

Lemma fit_est_total (timer_ms distance_m : Q) :
  exists e, AnalyzeFit.est_5k_sec timer_ms distance_m = Some e /\ 0 <= e.
Proof.
  unfold AnalyzeFit.est_5k_sec.
  destruct (Qlt_le_dec 0 distance_m) as [H | H].
  - rewrite (fit_pace_positive _ _ H). cbn [Py.bind].
    eexists. split; [reflexivity | apply fit_estimate_nonnegative].
  - rewrite (fit_pace_no_distance _ _ H). cbn [Py.bind].
    eexists. split; [reflexivity | apply fit_estimate_nonnegative].
Qed.

Lemma gpx_est_total (elapsed_sec distance_m : Q) :
  exists cell, AnalyzeGpx.est_5k elapsed_sec distance_m = Some cell.
Proof.
  unfold AnalyzeGpx.est_5k.
  destruct (Qlt_le_dec 0 distance_m) as [H | H].
  - rewrite (gpx_pace_positive _ _ H). cbn [Py.bind].
    apply gpx_estimate_total.
  - rewrite (gpx_pace_no_distance _ _ H). cbn [Py.bind].
    apply gpx_estimate_total.
Qed.

End Estimates.

(** ** The projection *)

Section Projection.

(** The specification's [project] takes a target distance; the scripts
    project to 5000 only.  At elapsed 1000 s, distance 1000 m and target
    10000 m the formula asks for 9000 s, and both scripts answer 4000 s. *)
Lemma est_5k_not_for_every_target :
  (exists e, AnalyzeFit.est_5k_sec 1000000 1000 = Some e /\ e == 4000)
  /\ (exists e m s,
         AnalyzeGpx.est_5k 1000 1000 = Some (AnalyzeGpx.Shown e m s)
         /\ e == 4000)
  /\ (exists e', Spec.project 1000 1000 10000 = Some e' /\ e' == 9000)
  /\ ~ 4000 == 9000.
Proof.
  split; [eexists; split; [vm_compute; reflexivity | reflexivity]|].
  split; [do 3 eexists; split; [vm_compute; reflexivity | reflexivity]|].
  split; [eexists; split; [vm_compute; reflexivity | reflexivity]|].
  intro H. discriminate H.
Qed.

(** C5, amended.  With the target fixed at 5000, as the scripts have it:
    for an elapsed time above 0 and a distance past the script's warm-up
    and sane-pace guards, a positive [remaining = 5000 - distance] gives
    the estimate [remaining * (elapsed / distance)], which is positive,
    and a [remaining <= 0] gives the already-reached result (0 in
    [analyze_fit.py], the HIT cell in [analyze_gpx.py]); no estimate is
    negative; and 1000 s at 1000 m gives 4000 s. *)
Theorem est_5k_formula
        (timer_ms fit_distance elapsed_sec gpx_distance : Q) :
  0 < timer_ms ->
  100 < fit_distance ->
  0.05 <= timer_ms / 1000.0 / fit_distance <= 20.0 ->
  0 < elapsed_sec ->
  100 <= gpx_distance ->
  0.05 <= elapsed_sec / gpx_distance <= 20.0 ->
  (0 < 5000 - fit_distance ->
   AnalyzeFit.est_5k_sec timer_ms fit_distance
   = Some ((5000 - fit_distance) * (timer_ms / 1000.0 / fit_distance))
   /\ 0 < (5000 - fit_distance) * (timer_ms / 1000.0 / fit_distance))
  /\ (5000 - fit_distance <= 0 ->
      AnalyzeFit.est_5k_sec timer_ms fit_distance = Some 0)
  /\ (0 < 5000 - gpx_distance ->
      (exists m s,
          AnalyzeGpx.est_5k elapsed_sec gpx_distance
          = Some (AnalyzeGpx.Shown
                    ((5000 - gpx_distance) * (elapsed_sec / gpx_distance))
                    m s))
      /\ Spec.project elapsed_sec gpx_distance 5000
         = Some ((5000 - gpx_distance) * (elapsed_sec / gpx_distance))
      /\ 0 < (5000 - gpx_distance) * (elapsed_sec / gpx_distance))
  /\ (5000 - gpx_distance <= 0 ->
      AnalyzeGpx.est_5k elapsed_sec gpx_distance = Some AnalyzeGpx.Hit
      /\ Spec.project elapsed_sec gpx_distance 5000 = Some 0)
  /\ (forall t d,
         exists e, AnalyzeFit.est_5k_sec t d = Some e /\ 0 <= e)
  /\ (exists e, AnalyzeFit.est_5k_sec 1000000 1000 = Some e /\ e == 4000)
  /\ (exists e,
         AnalyzeGpx.est_5k 1000 1000 = Some (AnalyzeGpx.Shown e 66 40)
         /\ e == 4000).
Proof.
  intros _ Hfd Hfp _ Hgd Hgp.
  assert (Hfd0 : 0 < fit_distance).
  { apply Qlt_trans with (y := 100); [reflexivity | exact Hfd]. }
  assert (Hgd0 : 0 < gpx_distance).
  { apply Qlt_le_trans with (y := 100); [reflexivity | exact Hgd]. }
  assert (Hspec : Py.ge gpx_distance 100
                  && (Py.le 0.05 (elapsed_sec / gpx_distance)
                      && Py.le (elapsed_sec / gpx_distance) 20.0) = true).
  { rewrite (proj2 (ge_true_iff _ _) Hgd), (proj2 (sane_test_true _) Hgp).
    reflexivity. }
  repeat match goal with |- _ /\ _ => split end.
  - intro Hr. split.
    + unfold AnalyzeFit.est_5k_sec.
      rewrite (fit_pace_positive _ _ Hfd0). cbn [Py.bind].
      rewrite (fit_estimate_guarded _ _ Hfd Hfp).
      rewrite (proj2 (gt_true_iff _ _) Hr). reflexivity.
    + apply Qmult_lt_0_compat; [exact Hr|].
      apply sane_pace_positive. exact (proj1 Hfp).
  - intro Hr. unfold AnalyzeFit.est_5k_sec.
    rewrite (fit_pace_positive _ _ Hfd0). cbn [Py.bind].
    rewrite (fit_estimate_guarded _ _ Hfd Hfp).
    rewrite (proj2 (gt_false_iff _ _) Hr). reflexivity.
  - intro Hr. split; [|split].
    + unfold AnalyzeGpx.est_5k.
      rewrite (gpx_pace_positive _ _ Hgd0). cbn [Py.bind].
      rewrite (gpx_estimate_guarded _ _ Hgd Hgp).
      rewrite (proj2 (gt_true_iff _ _) Hr). eexists. eexists. reflexivity.
    + unfold Spec.project. cbv zeta. rewrite Hspec.
      rewrite (proj2 (gt_true_iff _ _) Hr). reflexivity.
    + apply Qmult_lt_0_compat; [exact Hr|].
      apply sane_pace_positive. exact (proj1 Hgp).
  - intro Hr. split.
    + unfold AnalyzeGpx.est_5k.
      rewrite (gpx_pace_positive _ _ Hgd0). cbn [Py.bind].
      rewrite (gpx_estimate_guarded _ _ Hgd Hgp).
      rewrite (proj2 (gt_false_iff _ _) Hr). reflexivity.
    + unfold Spec.project. cbv zeta. rewrite Hspec.
      rewrite (proj2 (gt_false_iff _ _) Hr). reflexivity.
  - intros t d. apply fit_est_total.
  - eexists. split; [vm_compute; reflexivity | reflexivity].
  - eexists. split; [vm_compute; reflexivity | reflexivity].
Qed.

(** A record and a trackpoint 1200 s into the run at 3000 m. *)
Lemma est_5k_formula_witness :
  AnalyzeFit.est_5k_sec 1200000 3000
  = Some ((5000 - 3000) * (1200000 / 1000.0 / 3000))
  /\ (exists m s,
         AnalyzeGpx.est_5k 1200 3000
         = Some (AnalyzeGpx.Shown ((5000 - 3000) * (1200 / 3000)) m s))
  /\ Spec.project 1200 3000 5000 = Some ((5000 - 3000) * (1200 / 3000)).
Proof.
  destruct (est_5k_formula 1200000 3000 1200 3000)
    as (Hfit & _ & Hgpx & _); try solve [evaluate_closed].
  destruct Hfit as [Hfit _]; [evaluate_closed|].
  destruct Hgpx as (Hcell & Hspec & _); [evaluate_closed|].
  split; [exact Hfit|]. split; [exact Hcell | exact Hspec].
Defined.

(** The sibling path: past a sane pace, [analyze_gpx.py] leaves the
    placeholder exactly below 100 and gives an estimate from 100 on. *)
Lemma gpx_estimates_from_warmup (elapsed_sec distance_m : Q) :
  0 < distance_m ->
  0.05 <= elapsed_sec / distance_m <= 20.0 ->
  (100 <= distance_m ->
   AnalyzeGpx.est_5k elapsed_sec distance_m = Some AnalyzeGpx.Hit
   \/ exists e m s,
       AnalyzeGpx.est_5k elapsed_sec distance_m
       = Some (AnalyzeGpx.Shown e m s))
  /\ (distance_m < 100 ->
      AnalyzeGpx.est_5k elapsed_sec distance_m = Some AnalyzeGpx.Warmup).
Proof.
  intros Hd Hp. unfold AnalyzeGpx.est_5k.
  rewrite (gpx_pace_positive _ _ Hd). cbn [Py.bind]. split; intro H.
  - rewrite (gpx_estimate_guarded _ _ H Hp).
    destruct (Py.gt (5000 - distance_m) 0).
    + right. do 3 eexists. reflexivity.
    + left. reflexivity.
  - unfold AnalyzeGpx.estimate.
    assert (E : Py.ge distance_m 100 = false).
    { apply le_false_iff. exact H. }
    rewrite E. reflexivity.
Qed.

(** C6, the failing input.  [analyze_fit.py] tests [distance_m > 100]: at
    a distance of exactly 100 its estimate is 0, the value it also gives
    when no estimate is available, whatever the time; with 100 s on the
    clock the pace is a sane 1 s/m, and both [analyze_gpx.py] and the
    specification's [project] give 4900 s. *)
Theorem fit_estimate_at_warmup_boundary :
  (forall timer_ms, AnalyzeFit.est_5k_sec timer_ms 100 = Some 0)
  /\ (exists pace,
         AnalyzeFit.pace_sec_per_m 100000 100 = Some pace
         /\ pace == 1 /\ 0.05 <= pace <= 20.0)
  /\ (exists e,
         AnalyzeGpx.est_5k 100 100 = Some (AnalyzeGpx.Shown e 81 40)
         /\ e == 4900)
  /\ (exists e, Spec.project 100 100 5000 = Some e /\ e == 4900).
Proof.
  split; [|split; [|split]].
  - intro timer_ms. unfold AnalyzeFit.est_5k_sec.
    rewrite fit_pace_positive by reflexivity. cbn [Py.bind].
    unfold AnalyzeFit.estimate.
    replace (Py.gt 100 100) with false by reflexivity. reflexivity.
  - eexists. split; [vm_compute; reflexivity|].
    split; [reflexivity|]. split; intro H; discriminate H.
  - eexists. split; [vm_compute; reflexivity | reflexivity].
  - eexists. split; [vm_compute; reflexivity | reflexivity].
Qed.

End Projection.

(** ** No raised error *)

Section Totality.
Import Detector.

(** C9.  [detect] and the two estimates return on every numeric input,
    zero distance and zero pace included.  Division by zero is an error
    of the model ([Py.div a 0 = None]); the ratio of line 68 is taken
    only behind [last_valid_pace > 0] and the paces of the analyzers only
    behind [distance > 0], where the other branch assigns 0, so the error
    is never reached. *)
Theorem detect_and_estimates_total :
  (forall a, Py.div a 0 = None)
  /\ (forall self elapsed_distance pace,
         exists o, detect self elapsed_distance pace = Some o)
  /\ (forall self expl pace,
         last_valid_pace self <= 0 ->
         pace_consistency self expl pace = accept self expl pace)
  /\ (forall timer_ms distance_m,
         exists e, AnalyzeFit.est_5k_sec timer_ms distance_m = Some e)
  /\ (forall elapsed_sec distance_m,
         exists cell, AnalyzeGpx.est_5k elapsed_sec distance_m = Some cell)
  /\ (forall timer_ms distance_m,
         distance_m <= 0 ->
         AnalyzeFit.pace_sec_per_m timer_ms distance_m = Some 0)
  /\ (forall elapsed_sec distance_m,
         distance_m <= 0 ->
         AnalyzeGpx.pace_sec_per_m elapsed_sec distance_m = Some 0)
  /\ (exists o, detect init 0 0 = Some o /\ should_show o = false)
  /\ AnalyzeFit.est_5k_sec 0 0 = Some 0
  /\ AnalyzeGpx.est_5k 0 0 = Some AnalyzeGpx.Warmup.
Proof.
  split; [exact div_by_zero|].
  split.
  { intros self d p. destruct (detect_outcome self d p) as (o & Ho & _).
    exists o. exact Ho. }
  split; [intros self expl pace; apply pace_consistency_first|].
  split.
  { intros t d. destruct (fit_est_total t d) as (e & He & _).
    exists e. exact He. }
  split; [exact gpx_est_total|].
  split; [exact fit_pace_no_distance|].
  split; [exact gpx_pace_no_distance|].
  split; [eexists; split; vm_compute; reflexivity|].
  split; vm_compute; reflexivity.
Qed.

End Totality.

Section TotalityInstances.
Import Detector.

(** A fresh detector on an all-zero sample, and the two paces at zero
    distance. *)
Lemma detect_and_estimates_total_witness :
  (exists o, detect init 0 0 = Some o)
  /\ AnalyzeFit.pace_sec_per_m 5000 0 = Some 0
  /\ AnalyzeGpx.pace_sec_per_m 5 0 = Some 0.
Proof.
  destruct detect_and_estimates_total
    as (_ & Hdetect & _ & _ & _ & Hfit & Hgpx & _).
  split; [apply Hdetect|].
  split; [apply Hfit | apply Hgpx]; evaluate_closed.
Defined.

End TotalityInstances.

(** ** More on the detector *)

Section DetectorLaws.
Import Detector.

Lemma below_bounds_not_in_bounds (pace : Q) :
  pace < MIN_REASONABLE_PACE \/ MAX_REASONABLE_PACE < pace ->
  ~ pace_in_bounds pace.
Proof.
  intros [H | H] [Hlo Hhi].
  - exact (Qlt_not_le _ _ H Hlo).
  - exact (Qlt_not_le _ _ H Hhi).
Qed.

(** The verdict of the pace axis, in full. *)
Lemma pace_consistency_verdict (self : DetectorState)
      (expl : list Reason) (pace : Q) :
  exists o,
    pace_consistency self expl pace = Some o
    /\ (should_show o = false <-> pace_suppresses self pace)
    /\ last_valid_distance (state o) = last_valid_distance self
    /\ distance_stagnation_count (state o) = distance_stagnation_count self.
Proof.
  unfold pace_suppresses.
  destruct (Qlt_le_dec 0 (last_valid_pace self)) as [Hp | Hp].
  - destruct (ratio_dec (last_valid_pace self) pace) as [Hr | Hr].
    + destruct (le_lt_dec 3 (S (pace_anomaly_count self))) as [Hn | Hn].
      * rewrite (pace_consistency_volatile _ _ _ Hp Hr Hn).
        eexists. split; [reflexivity|]. cbn. tauto.
      * rewrite (pace_consistency_spike _ _ _ Hp Hr Hn).
        eexists. split; [reflexivity|]. cbn.
        split; [|split; reflexivity].
        split; [discriminate|]. intros (_ & _ & H). lia.
    + rewrite (pace_consistency_calm _ _ _ Hp Hr).
      eexists. split; [reflexivity|]. cbn.
      split; [|split; reflexivity].
      split; [discriminate|]. intros (_ & Hs & _). exfalso.
      destruct Hr as [Hlo Hhi]. destruct Hs as [Hs | Hs].
      * exact (Qlt_not_le _ _ Hs Hhi).
      * exact (Qlt_not_le _ _ Hs Hlo).
  - rewrite (pace_consistency_first _ _ _ Hp).
    eexists. split; [reflexivity|]. cbn.
    split; [|split; reflexivity].
    split; [discriminate|]. intros (H & _). exfalso.
    exact (Qlt_not_le _ _ H Hp).
Qed.

(** X1.  [detect] shows a sample exactly when its pace is inside the
    validator bounds, the distance axis lets it through, and the pace axis
    does not suppress. *)
Theorem detect_shows_iff (self : DetectorState) (elapsed_distance pace : Q) :
  exists o,
    detect self elapsed_distance pace = Some o
    /\ (should_show o = true
        <-> pace_in_bounds pace
            /\ distance_passes self elapsed_distance
            /\ ~ pace_suppresses self pace).
Proof.
  destruct (Qlt_le_dec pace MIN_REASONABLE_PACE) as [Hlo | Hlo].
  { rewrite detect_insane by (left; exact Hlo).
    eexists. split; [reflexivity|]. cbn. split; [discriminate|].
    intros (Hb & _). exfalso.
    apply (below_bounds_not_in_bounds pace); [left; exact Hlo | exact Hb]. }
  destruct (Qlt_le_dec MAX_REASONABLE_PACE pace) as [Hhi | Hhi].
  { rewrite detect_insane by (right; exact Hhi).
    eexists. split; [reflexivity|]. cbn. split; [discriminate|].
    intros (Hb & _). exfalso.
    apply (below_bounds_not_in_bounds pace); [right; exact Hhi | exact Hb]. }
  assert (Hb : pace_in_bounds pace) by (split; assumption).
  destruct (stagnant_dec self elapsed_distance) as [Hs | Hs].
  - destruct (le_lt_dec FIT_STAGNATION_THRESHOLD
                        (S (distance_stagnation_count self))) as [Hn | Hn].
    + rewrite (detect_frozen _ _ _ Hb Hs Hn).
      eexists. split; [reflexivity|]. cbn. split; [discriminate|].
      intros (_ & Hd & _). specialize (Hd Hs). lia.
    + rewrite (detect_stagnating _ _ _ Hb Hs Hn).
      destruct (pace_consistency_verdict
                  (set_distance_stagnation_count
                     self (S (distance_stagnation_count self)))
                  [DistanceStagnation (S (distance_stagnation_count self))]
                  pace) as (o & Ho & Hv & _).
      exists o. split; [exact Ho|].
      change (pace_suppresses
                (set_distance_stagnation_count
                   self (S (distance_stagnation_count self))) pace)
        with (pace_suppresses self pace) in Hv.
      destruct (should_show o).
      * split; [|reflexivity]. intros _. split; [exact Hb|].
        split; [intros _; exact Hn|]. intro H. apply Hv in H. discriminate H.
      * split; [discriminate|]. intros (_ & _ & H). exfalso.
        apply H. apply Hv. reflexivity.
  - rewrite (detect_moving _ _ _ Hb Hs).
    destruct (pace_consistency_verdict
                (set_last_valid_distance
                   (set_distance_stagnation_count self 0) elapsed_distance)
                [] pace) as (o & Ho & Hv & _).
    exists o. split; [exact Ho|].
    change (pace_suppresses
              (set_last_valid_distance
                 (set_distance_stagnation_count self 0) elapsed_distance)
              pace)
      with (pace_suppresses self pace) in Hv.
    destruct (should_show o).
    + split; [|reflexivity]. intros _. split; [exact Hb|].
      split; [intro H; contradiction|].
      intro H. apply Hv in H. discriminate H.
    + split; [discriminate|]. intros (_ & _ & H). exfalso.
      apply H. apply Hv. reflexivity.
Qed.

(** X2.  A sample whose distance is not within 0.001 of
    [last_valid_distance] becomes the new baseline whatever the stagnation
    count was, a frozen one included: the count returns to 0,
    [last_valid_distance] is the sample's distance, and the call suppresses
    exactly when the pace axis does.  The distance update stands even when
    the pace axis suppresses. *)
Theorem moving_sample_resets_stagnation
        (self : DetectorState) (elapsed_distance pace : Q) :
  pace_in_bounds pace ->
  ~ stagnant self elapsed_distance ->
  exists o,
    detect self elapsed_distance pace = Some o
    /\ distance_stagnation_count (state o) = 0%nat
    /\ last_valid_distance (state o) = elapsed_distance
    /\ (should_show o = false <-> pace_suppresses self pace).
Proof.
  intros Hb Hs. rewrite (detect_moving _ _ _ Hb Hs).
  destruct (pace_consistency_verdict
              (set_last_valid_distance
                 (set_distance_stagnation_count self 0) elapsed_distance)
              [] pace) as (o & Ho & Hv & Hd & Hn).
  exists o. split; [exact Ho|]. split; [exact Hn|]. split; [exact Hd|].
  exact Hv.
Qed.

End DetectorLaws.

Section DetectorRuns.
Import Detector.

(** X3.  A stuck sensor stays suppressed: from a stagnation count of 4 or
    more, every sample of a run within 0.001 of [last_valid_distance] and
    with a pace inside the validator bounds is suppressed, the pace fields
    and [last_valid_distance] never change, and the count grows by the
    length of the run. *)
Theorem frozen_run_stays_suppressed (samples : list (Q * Q)) :
  forall self : DetectorState,
    (4 <= distance_stagnation_count self)%nat ->
    Forall (fun s => stagnant self (fst s) /\ pace_in_bounds (snd s))
           samples ->
    exists os,
      feed self samples = Some os
      /\ map should_show os = repeat false (List.length samples)
      /\ Forall (fun o => last_valid_distance (state o)
                          = last_valid_distance self
                          /\ last_valid_pace (state o) = last_valid_pace self
                          /\ pace_anomaly_count (state o)
                             = pace_anomaly_count self) os
      /\ distance_stagnation_count (last_state self os)
         = (distance_stagnation_count self + List.length samples)%nat.
Proof.
  induction samples as [| [d p] rest IH]; intros self Hn Hall.
  - exists []. cbn. rewrite Nat.add_0_r. auto.
  - inversion Hall as [| x l [Hs Hb] Hrest]; subst. cbn in Hs, Hb.
    assert (Hth : (FIT_STAGNATION_THRESHOLD
                   <= S (distance_stagnation_count self))%nat).
    { unfold FIT_STAGNATION_THRESHOLD. lia. }
    pose proof (detect_frozen self d p Hb Hs Hth) as Ho.
    set (o := mkOutcome false
                [DistanceStagnation (S (distance_stagnation_count self));
                 DistanceFrozen]
                (set_distance_stagnation_count
                   self (S (distance_stagnation_count self)))) in Ho.
    destruct (IH (state o)) as (os & Hos & Hshows & Hkeep & Hcount).
    + cbn. lia.
    + exact Hrest.
    + exists (o :: os). cbn [feed]. rewrite Ho. cbn [Py.bind].
      rewrite Hos. cbn [Py.bind]. split; [reflexivity|].
      cbn [map List.length repeat last_state fold_left].
      fold (last_state (state o) os). rewrite Hshows.
      split; [reflexivity|]. split.
      * constructor; [cbn; auto|]. exact Hkeep.
      * rewrite Hcount. cbn. lia.
Qed.

(** One call keeps [accepted_pace_ok], and a shown sample leaves both
    counters below their thresholds. *)
Lemma detect_keeps_accepted_pace_ok (self : DetectorState) (d p : Q) :
  accepted_pace_ok self ->
  exists o,
    detect self d p = Some o
    /\ accepted_pace_ok (state o)
    /\ (should_show o = true ->
        (distance_stagnation_count (state o)
         < FIT_STAGNATION_THRESHOLD)%nat
        /\ (pace_anomaly_count (state o) < 3)%nat).
Proof.
  intro Hinv.
  assert (Hpace : forall self' expl,
             accepted_pace_ok self' ->
             pace_in_bounds p ->
             exists o,
               pace_consistency self' expl p = Some o
               /\ accepted_pace_ok (state o)
               /\ distance_stagnation_count (state o)
                  = distance_stagnation_count self'
               /\ (should_show o = true ->
                   (pace_anomaly_count (state o) < 3)%nat)).
  { intros self' expl Hinv' Hb.
    destruct (Qlt_le_dec 0 (last_valid_pace self')) as [Hp | Hp].
    - destruct (ratio_dec (last_valid_pace self') p) as [Hr | Hr].
      + destruct (le_lt_dec 3 (S (pace_anomaly_count self'))) as [Hn | Hn].
        * rewrite (pace_consistency_volatile _ _ _ Hp Hr Hn).
          eexists. split; [reflexivity|]. cbn.
          split; [|split; [reflexivity | discriminate]].
          right. destruct Hinv' as [[E _] | H]; [|exact H].
          exfalso. rewrite E in Hp. exact (Qlt_irrefl _ Hp).
        * rewrite (pace_consistency_spike _ _ _ Hp Hr Hn).
          eexists. split; [reflexivity|]. cbn.
          split; [right; exact Hb|]. split; [reflexivity|]. intros _. lia.
      + rewrite (pace_consistency_calm _ _ _ Hp Hr).
        eexists. split; [reflexivity|]. cbn.
        split; [right; exact Hb|]. split; [reflexivity|]. intros _. lia.
    - rewrite (pace_consistency_first _ _ _ Hp).
      eexists. split; [reflexivity|]. cbn.
      split; [right; exact Hb|]. split; [reflexivity|]. intros _.
      destruct Hinv' as [[_ E] | H]; [rewrite E; lia|].
      exfalso. apply in_bounds_positive in H.
      exact (Qlt_not_le _ _ H Hp). }
  destruct (Qlt_le_dec p MIN_REASONABLE_PACE) as [Hlo | Hlo].
  { rewrite detect_insane by (left; exact Hlo).
    eexists. split; [reflexivity|]. cbn. split; [exact Hinv | discriminate]. }
  destruct (Qlt_le_dec MAX_REASONABLE_PACE p) as [Hhi | Hhi].
  { rewrite detect_insane by (right; exact Hhi).
    eexists. split; [reflexivity|]. cbn. split; [exact Hinv | discriminate]. }
  assert (Hb : pace_in_bounds p) by (split; assumption).
  destruct (stagnant_dec self d) as [Hs | Hs].
  - destruct (le_lt_dec FIT_STAGNATION_THRESHOLD
                        (S (distance_stagnation_count self))) as [Hn | Hn].
    + rewrite (detect_frozen _ _ _ Hb Hs Hn).
      eexists. split; [reflexivity|]. cbn.
      split; [exact Hinv | discriminate].
    + rewrite (detect_stagnating _ _ _ Hb Hs Hn).
      destruct (Hpace (set_distance_stagnation_count
                         self (S (distance_stagnation_count self)))
                      [DistanceStagnation
                         (S (distance_stagnation_count self))]
                      Hinv Hb) as (o & Ho & Hi & Hc & Ha).
      exists o. split; [exact Ho|]. split; [exact Hi|]. intro E.
      split; [rewrite Hc; exact Hn | exact (Ha E)].
  - rewrite (detect_moving _ _ _ Hb Hs).
    destruct (Hpace (set_last_valid_distance
                       (set_distance_stagnation_count self 0) d)
                    [] Hinv Hb) as (o & Ho & Hi & Hc & Ha).
    exists o. split; [exact Ho|]. split; [exact Hi|]. intro E.
    split; [rewrite Hc; cbn; unfold FIT_STAGNATION_THRESHOLD; lia
           | exact (Ha E)].
Qed.

(** X4.  Along any stream fed to a detector whose accepted pace is sound
    (none yet and no spike counted, or one inside the validator bounds, as
    after [__init__] or [reset]), every call returns, the accepted pace
    stays sound, and every shown sample leaves the stagnation count below 5
    and the spike count below 3. *)
Theorem accepted_pace_stays_sound (samples : list (Q * Q)) :
  forall self : DetectorState,
    accepted_pace_ok self ->
    exists os,
      feed self samples = Some os
      /\ List.length os = List.length samples
      /\ Forall (fun o =>
                   accepted_pace_ok (state o)
                   /\ (should_show o = true ->
                       (distance_stagnation_count (state o)
                        < FIT_STAGNATION_THRESHOLD)%nat
                       /\ (pace_anomaly_count (state o) < 3)%nat)) os.
Proof.
  induction samples as [| [d p] rest IH]; intros self Hinv.
  - exists []. cbn. auto.
  - destruct (detect_keeps_accepted_pace_ok self d p Hinv)
      as (o & Ho & Hi & Hc).
    destruct (IH (state o) Hi) as (os & Hos & Hlen & Hall).
    exists (o :: os). cbn [feed]. rewrite Ho. cbn [Py.bind].
    rewrite Hos. cbn [Py.bind]. split; [reflexivity|].
    split; [cbn; rewrite Hlen; reflexivity|].
    constructor; [split; assumption | exact Hall].
Qed.

(** X5.  After [reset] the first sample is judged by the validator alone,
    whatever its distance: it is shown exactly when its pace is inside the
    bounds, and then its pace is accepted with no spike counted. *)
Theorem first_sample_after_reset
        (self : DetectorState) (elapsed_distance pace : Q) :
  exists o,
    detect (reset self) elapsed_distance pace = Some o
    /\ (should_show o = true <-> pace_in_bounds pace)
    /\ (should_show o = true ->
        last_valid_pace (state o) = pace
        /\ pace_anomaly_count (state o) = 0%nat).
Proof.
  destruct (Qlt_le_dec pace MIN_REASONABLE_PACE) as [Hlo | Hlo].
  { rewrite detect_insane by (left; exact Hlo).
    eexists. split; [reflexivity|]. cbn. split; [|discriminate].
    split; [discriminate|]. intro Hb. exfalso.
    apply (below_bounds_not_in_bounds pace); [left; exact Hlo | exact Hb]. }
  destruct (Qlt_le_dec MAX_REASONABLE_PACE pace) as [Hhi | Hhi].
  { rewrite detect_insane by (right; exact Hhi).
    eexists. split; [reflexivity|]. cbn. split; [|discriminate].
    split; [discriminate|]. intro Hb. exfalso.
    apply (below_bounds_not_in_bounds pace); [right; exact Hhi | exact Hb]. }
  assert (Hb : pace_in_bounds pace) by (split; assumption).
  assert (Hz : last_valid_pace (reset self) <= 0) by (cbn; discriminate).
  destruct (stagnant_dec (reset self) elapsed_distance) as [Hs | Hs].
  - rewrite (detect_stagnating _ _ _ Hb Hs)
      by (cbn; unfold FIT_STAGNATION_THRESHOLD; lia).
    rewrite pace_consistency_first by exact Hz.
    eexists. split; [reflexivity|]. cbn. tauto.
  - rewrite (detect_moving _ _ _ Hb Hs).
    rewrite pace_consistency_first by exact Hz.
    eexists. split; [reflexivity|]. cbn. tauto.
Qed.

(** X6.  A healthy stream is never suppressed: when every distance is at
    least 0.001 from the one before it, every pace is inside the validator
    bounds and calm against the pace before it, every sample is shown, each
    call leaves the stagnation count at 0 and adopts the sample's distance
    and pace. *)
Theorem healthy_run_always_shown (samples : list (Q * Q)) :
  forall self : DetectorState,
    Forall (fun s => pace_in_bounds (snd s)) samples ->
    moving_chain (last_valid_distance self) (map fst samples) ->
    calm_chain (last_valid_pace self) (map snd samples) ->
    exists os,
      feed self samples = Some os
      /\ map should_show os = repeat true (List.length samples)
      /\ Forall2 (fun s o =>
                    last_valid_distance (state o) = fst s
                    /\ last_valid_pace (state o) = snd s
                    /\ distance_stagnation_count (state o) = 0%nat)
                 samples os.
Proof.
  induction samples as [| [d p] rest IH]; intros self Hall Hmove Hcalm.
  - exists []. cbn. auto.
  - inversion Hall as [| x l Hb Hrest]; subst. cbn in Hb.
    destruct Hmove as [Hm Hmove]. destruct Hcalm as [Hc Hcalm].
    assert (Ho : exists o,
               detect self d p = Some o
               /\ should_show o = true
               /\ last_valid_distance (state o) = d
               /\ last_valid_pace (state o) = p
               /\ distance_stagnation_count (state o) = 0%nat).
    { rewrite (detect_moving self d p Hb Hm).
      destruct (Qlt_le_dec 0 (last_valid_pace self)) as [Hp | Hp].
      - rewrite pace_consistency_calm by (cbn; auto).
        eexists. split; [reflexivity|]. cbn. auto.
      - rewrite pace_consistency_first by (cbn; auto).
        eexists. split; [reflexivity|]. cbn. auto. }
    destruct Ho as (o & Ho & Hshow & Hd & Hp & Hn).
    destruct (IH (state o) Hrest) as (os & Hos & Hshows & Hstates).
    + rewrite Hd. exact Hmove.
    + rewrite Hp. exact Hcalm.
    + exists (o :: os). cbn [feed]. rewrite Ho. cbn [Py.bind].
      rewrite Hos. cbn [Py.bind]. split; [reflexivity|].
      cbn [map List.length repeat]. rewrite Hshow, Hshows.
      split; [reflexivity|]. constructor; [cbn; auto | exact Hstates].
Qed.

(** X7.  [test_scenario]'s loop returns on every list of events, with one
    row per event, and its final [suppression_count] is the count it
    started from plus the number of suppressed rows. *)
Theorem run_events_counts_suppressions (events : list PaceEvent) :
  forall (detector : DetectorState) (suppression_count : nat),
  exists rows n final,
    run_events detector suppression_count events = Some (rows, n, final)
    /\ List.length rows = List.length events
    /\ n = (suppression_count + suppressed rows)%nat.
Proof.
  induction events as [| e rest IH]; intros detector k.
  - exists [], k, detector. cbn. split; [reflexivity|]. split; [reflexivity|].
    lia.
  - cbn [run_events]. unfold evaluate.
    destruct (detect_outcome detector (distance_m e) (calculated_pace e))
      as (o & Ho & _).
    rewrite Ho. cbn [Py.bind].
    destruct (IH (state o) (if should_show o then k else S k))
      as (rows & n & final & Hrun & Hlen & Hn).
    rewrite Hrun. cbn [Py.bind].
    exists ((should_show o, explanation o) :: rows), n, final.
    split; [reflexivity|]. split; [cbn; rewrite Hlen; reflexivity|].
    rewrite Hn. unfold suppressed. cbn [filter fst].
    destruct (should_show o); cbn; lia.
Qed.

End DetectorRuns.

Section Outliers.
Import Detector.

Lemma positive_nonzero (a : Q) : 0 < a -> ~ a == 0.
Proof. intros Ha E. rewrite E in Ha. discriminate Ha. Qed.

(** An excursion one way is an excursion on the way back. *)
Lemma ratio_spikes_back (a b : Q) :
  0 < a -> 0 < b -> ratio_spikes a b -> ratio_spikes b a.
Proof.
  intros Ha Hb [H | H].
  - right. apply Qlt_shift_div_r; [exact Hb|].
    assert (E : 2.0 * a < b).
    { setoid_replace b with (b / a * a).
      - apply Qmult_lt_compat_r; assumption.
      - field. apply positive_nonzero. exact Ha. }
    lra.
  - left. apply Qlt_shift_div_l; [exact Hb|].
    assert (E : b < 0.5 * a).
    { setoid_replace b with (b / a * a) at 1.
      - apply Qmult_lt_compat_r; assumption.
      - field. apply positive_nonzero. exact Ha. }
    lra.
Qed.

Lemma ratio_of_equal_paces (a : Q) : 0 < a -> ratio_in_range a a.
Proof.
  intro Ha. unfold ratio_in_range.
  assert (E : a / a == 1) by (field; apply positive_nonzero; exact Ha).
  rewrite E. split; discriminate.
Qed.

(** A moving sample with a below-threshold excursion. *)
Lemma moving_spike_step (self : DetectorState) (d p : Q) :
  pace_in_bounds p ->
  ~ stagnant self d ->
  0 < last_valid_pace self ->
  ratio_spikes (last_valid_pace self) p ->
  (S (pace_anomaly_count self) < 3)%nat ->
  exists o,
    detect self d p = Some o
    /\ should_show o = true
    /\ last_valid_distance (state o) = d
    /\ last_valid_pace (state o) = p
    /\ pace_anomaly_count (state o) = S (pace_anomaly_count self).
Proof.
  intros Hb Hs Hp Hr Hn. rewrite (detect_moving _ _ _ Hb Hs).
  rewrite pace_consistency_spike by (cbn; auto).
  eexists. split; [reflexivity|]. cbn. auto.
Qed.

(** A moving sample with a ratio in range. *)
Lemma moving_calm_step (self : DetectorState) (d p : Q) :
  pace_in_bounds p ->
  ~ stagnant self d ->
  0 < last_valid_pace self ->
  ratio_in_range (last_valid_pace self) p ->
  exists o,
    detect self d p = Some o
    /\ should_show o = true
    /\ last_valid_distance (state o) = d
    /\ last_valid_pace (state o) = p
    /\ pace_anomaly_count (state o) = 0%nat.
Proof.
  intros Hb Hs Hp Hr. rewrite (detect_moving _ _ _ Hb Hs).
  rewrite pace_consistency_calm by (cbn; auto).
  eexists. split; [reflexivity|]. cbn. auto.
Qed.

(** X8.  A lone outlier never suppresses.  From a steady accepted pace
    with no spike counted, one in-bounds pace that is an excursion,
    followed by the steady pace twice (distances moving), is shown all
    three times: the outlier counts as spike 1, the return to the steady
    pace as spike 2 because the outlier was accepted as the reference, and
    the next steady sample clears the count. *)
Theorem lone_outlier_never_suppresses
        (self : DetectorState) (outlier d1 d2 d3 : Q) :
  pace_in_bounds (last_valid_pace self) ->
  pace_anomaly_count self = 0%nat ->
  pace_in_bounds outlier ->
  ratio_spikes (last_valid_pace self) outlier ->
  moving_chain (last_valid_distance self) [d1; d2; d3] ->
  exists o1 o2 o3,
    feed self [(d1, outlier); (d2, last_valid_pace self);
               (d3, last_valid_pace self)]
    = Some [o1; o2; o3]
    /\ map should_show [o1; o2; o3] = [true; true; true]
    /\ map (fun o => pace_anomaly_count (state o)) [o1; o2; o3]
       = [1%nat; 2%nat; 0%nat]
    /\ last_valid_pace (state o3) = last_valid_pace self.
Proof.
  intros Hsteady Hzero Hb Hr (Hm1 & Hm2 & Hm3 & _).
  pose proof (in_bounds_positive _ Hsteady) as Hp.
  pose proof (in_bounds_positive _ Hb) as Hq.
  destruct (moving_spike_step self d1 outlier Hb Hm1 Hp Hr)
    as (o1 & E1 & S1 & D1 & P1 & C1); [rewrite Hzero; lia|].
  destruct (moving_spike_step (state o1) d2 (last_valid_pace self))
    as (o2 & E2 & S2 & D2 & P2 & C2).
  { exact Hsteady. }
  { unfold stagnant. rewrite D1. exact Hm2. }
  { rewrite P1. exact Hq. }
  { rewrite P1. apply ratio_spikes_back; assumption. }
  { rewrite C1, Hzero. lia. }
  destruct (moving_calm_step (state o2) d3 (last_valid_pace self))
    as (o3 & E3 & S3 & D3 & P3 & C3).
  { exact Hsteady. }
  { unfold stagnant. rewrite D2. exact Hm3. }
  { rewrite P2. exact Hp. }
  { rewrite P2. apply ratio_of_equal_paces. exact Hp. }
  exists o1, o2, o3. cbn [feed]. rewrite E1. cbn [Py.bind].
  rewrite E2. cbn [Py.bind]. rewrite E3. cbn [Py.bind map].
  rewrite S1, S2, S3, C3, C2, C1, Hzero, P3. repeat split.
Qed.

End Outliers.

Section DetectorLawInstances.
Import Detector.

(** A frozen detector (count 6) meets a new distance. *)
Lemma moving_sample_witness :
  exists o,
    detect (mkState 1539.78 6 0.417 0) 1600 0.42 = Some o
    /\ distance_stagnation_count (state o) = 0%nat
    /\ last_valid_distance (state o) = 1600
    /\ (should_show o = false
        <-> pace_suppresses (mkState 1539.78 6 0.417 0) 0.42).
Proof.
  apply (moving_sample_resets_stagnation
           (mkState 1539.78 6 0.417 0) 1600 0.42); evaluate_closed.
Defined.

(** The last two events of [test_fit_distance_freeze]. *)
Lemma frozen_run_witness :
  exists os,
    feed (mkState 1539.78 4 0.417 0) [(1539.78, 0.426); (1539.78, 0.435)]
    = Some os
    /\ map should_show os = [false; false]
    /\ Forall (fun o => last_valid_distance (state o) = 1539.78
                        /\ last_valid_pace (state o) = 0.417
                        /\ pace_anomaly_count (state o) = 0%nat) os
    /\ distance_stagnation_count
         (last_state (mkState 1539.78 4 0.417 0) os) = 6%nat.
Proof.
  apply (frozen_run_stays_suppressed
           [(1539.78, 0.426); (1539.78, 0.435)]
           (mkState 1539.78 4 0.417 0)); evaluate_closed.
Defined.

(** The events of [test_mixed_anomalies] on a fresh detector. *)
Lemma accepted_pace_witness :
  exists os,
    feed init [(1000.00, 0.100); (1100.00, 0.100); (1100.00, 0.050);
               (1100.00, 0.150); (1100.00, 0.100); (1150.00, 0.100)]
    = Some os
    /\ List.length os = 6%nat
    /\ Forall (fun o =>
                 accepted_pace_ok (state o)
                 /\ (should_show o = true ->
                     (distance_stagnation_count (state o)
                      < FIT_STAGNATION_THRESHOLD)%nat
                     /\ (pace_anomaly_count (state o) < 3)%nat)) os.
Proof.
  apply (accepted_pace_stays_sound
           [(1000.00, 0.100); (1100.00, 0.100); (1100.00, 0.050);
            (1100.00, 0.150); (1100.00, 0.100); (1150.00, 0.100)] init).
  left. split; reflexivity.
Defined.

(** The events of [test_normal_5k_run] on a fresh detector. *)
Lemma healthy_run_witness :
  exists os,
    feed init [(103.20, 0.097); (207.21, 0.096); (311.32, 0.096);
               (415.53, 0.096); (519.74, 0.096); (623.95, 0.096)]
    = Some os
    /\ map should_show os = [true; true; true; true; true; true]
    /\ Forall2 (fun s o =>
                  last_valid_distance (state o) = fst s
                  /\ last_valid_pace (state o) = snd s
                  /\ distance_stagnation_count (state o) = 0%nat)
               [(103.20, 0.097); (207.21, 0.096); (311.32, 0.096);
                (415.53, 0.096); (519.74, 0.096); (623.95, 0.096)] os.
Proof.
  apply (healthy_run_always_shown
           [(103.20, 0.097); (207.21, 0.096); (311.32, 0.096);
            (415.53, 0.096); (519.74, 0.096); (623.95, 0.096)] init);
    evaluate_closed.
Defined.

(** A steady 0.1 s/m, one sample at 0.25 s/m, and back. *)
Lemma lone_outlier_witness :
  exists o1 o2 o3,
    feed (mkState 1000 0 0.1 0) [(1100, 0.25); (1200, 0.1); (1300, 0.1)]
    = Some [o1; o2; o3]
    /\ map should_show [o1; o2; o3] = [true; true; true]
    /\ map (fun o => pace_anomaly_count (state o)) [o1; o2; o3]
       = [1%nat; 2%nat; 0%nat]
    /\ last_valid_pace (state o3) = 0.1.
Proof.
  apply (lone_outlier_never_suppresses
           (mkState 1000 0 0.1 0) 0.25 1100 1200 1300); evaluate_closed.
Defined.

End DetectorLawInstances.

(** ** More on [analyze_fit.py] *)

Section FitAnalyzer.

Lemma hundred_positive (d : Q) : 100 < d -> 0 < d.
Proof. intro H. apply Qlt_trans with (y := 100); [reflexivity | exact H]. Qed.

(** X9.  The 5K estimate of a record is positive exactly when the distance
    is strictly between 100 and 5000 and the pace is inside [0.05, 20.0];
    otherwise it is 0; and it is always below 98000 s. *)
Theorem fit_estimate_positive_iff (timer_ms distance_m : Q) :
  exists e,
    AnalyzeFit.est_5k_sec timer_ms distance_m = Some e
    /\ (0 < e <-> 100 < distance_m /\ distance_m < 5000
                  /\ 0.05 <= timer_ms / 1000.0 / distance_m <= 20.0)
    /\ (~ 0 < e -> e = 0)
    /\ e < 98000.
Proof.
  unfold AnalyzeFit.est_5k_sec.
  destruct (Qlt_le_dec 0 distance_m) as [Hd | Hd].
  - rewrite (fit_pace_positive _ _ Hd). cbn [Py.bind].
    set (pace := timer_ms / 1000.0 / distance_m).
    eexists. split; [reflexivity|]. unfold AnalyzeFit.estimate.
    destruct (Py.gt distance_m 100) eqn:Hw; cbn [andb].
    + apply gt_true_iff in Hw.
      destruct (Py.le 0.05 pace) eqn:Hlo; cbn [andb].
      * apply le_true_iff in Hlo.
        destruct (Py.le pace 20.0) eqn:Hhi.
        -- apply le_true_iff in Hhi.
           destruct (Py.gt (5000 - distance_m) 0) eqn:Hr.
           ++ apply gt_true_iff in Hr.
              assert (Hpos : 0 < (5000 - distance_m) * pace).
              { apply Qmult_lt_0_compat; [exact Hr|].
                apply sane_pace_positive. exact Hlo. }
              split; [|split].
              ** split; [intros _|intros _; exact Hpos].
                 repeat split; try assumption. lra.
              ** intro H. contradiction.
              ** apply Qle_lt_trans with (y := (5000 - distance_m) * 20.0).
                 --- apply Qmult_le_l; assumption.
                 --- lra.
           ++ apply gt_false_iff in Hr. split; [|split].
              ** split; [intro H; discriminate H|].
                 intros (_ & H & _). exfalso. lra.
              ** reflexivity.
              ** reflexivity.
        -- apply le_false_iff in Hhi. split; [|split].
           ++ split; [intro H; discriminate H|].
              intros (_ & _ & _ & H). exfalso.
              exact (Qlt_not_le _ _ Hhi H).
           ++ reflexivity.
           ++ reflexivity.
      * apply le_false_iff in Hlo. split; [|split].
        -- split; [intro H; discriminate H|].
           intros (_ & _ & H & _). exfalso. exact (Qlt_not_le _ _ Hlo H).
        -- reflexivity.
        -- reflexivity.
    + apply gt_false_iff in Hw. split; [|split].
      * split; [intro H; discriminate H|].
        intros (H & _). exfalso. exact (Qlt_not_le _ _ H Hw).
      * reflexivity.
      * reflexivity.
  - rewrite (fit_pace_no_distance _ _ Hd). cbn [Py.bind].
    eexists. split; [reflexivity|]. unfold AnalyzeFit.estimate.
    assert (Hw : Py.gt distance_m 100 = false).
    { apply gt_false_iff. lra. }
    rewrite Hw. cbn [andb]. split; [|split].
    + split; [intro H; discriminate H|]. intros (H & _). exfalso. lra.
    + reflexivity.
    + reflexivity.
Qed.

(** Lines 148-151 behind [distance_m > 0]. *)
Lemma key_row_positive (rec : AnalyzeFit.FitRecord) :
  0 < AnalyzeFit.distance_m rec ->
  AnalyzeFit.key_row rec
  = Some (Some
      (let pace :=
         AnalyzeFit.timer_time_ms rec / 1000.0 / AnalyzeFit.distance_m rec in
       let est :=
         if Py.gt (5000 - AnalyzeFit.distance_m rec) 0
         then (5000 - AnalyzeFit.distance_m rec) * pace else 0 in
       AnalyzeFit.mkKeyRow pace (5000 - AnalyzeFit.distance_m rec) est
                           (est / 60.0))).
Proof.
  intro Hd. unfold AnalyzeFit.key_row.
  rewrite (proj2 (gt_true_iff _ _) Hd).
  rewrite div_nonzero by (intro E; discriminate E). cbn [Py.bind].
  rewrite (div_positive _ _ Hd). cbn [Py.bind]. cbv zeta.
  rewrite div_nonzero by (intro E; discriminate E). reflexivity.
Qed.

(** X10.  For a record past the warm-up (distance above 100) with a pace
    inside [0.05, 20.0], the key-timestamp block prints the same 5K
    estimate as the table. *)
Theorem key_row_agrees_with_table (rec : AnalyzeFit.FitRecord) :
  100 < AnalyzeFit.distance_m rec ->
  0.05 <= AnalyzeFit.timer_time_ms rec / 1000.0 / AnalyzeFit.distance_m rec
       <= 20.0 ->
  exists row,
    AnalyzeFit.key_row rec = Some (Some row)
    /\ AnalyzeFit.record_est_5k_sec rec
       = Some (AnalyzeFit.key_est_5k_sec row).
Proof.
  intros Hd Hp. pose proof (hundred_positive _ Hd) as Hd0.
  rewrite (key_row_positive rec Hd0). eexists. split; [reflexivity|].
  unfold AnalyzeFit.record_est_5k_sec, AnalyzeFit.est_5k_sec.
  rewrite (fit_pace_positive _ _ Hd0). cbn [Py.bind].
  rewrite (fit_estimate_guarded _ _ Hd Hp). reflexivity.
Qed.

(** X11.  The key-timestamp block has no warm-up guard: for a record with
    a positive time and a distance in (0, 100] it prints the positive
    estimate [(5000 - distance) * pace] where the table prints 0. *)
Theorem key_row_ignores_warmup (rec : AnalyzeFit.FitRecord) :
  0 < AnalyzeFit.timer_time_ms rec ->
  0 < AnalyzeFit.distance_m rec ->
  AnalyzeFit.distance_m rec <= 100 ->
  exists row,
    AnalyzeFit.key_row rec = Some (Some row)
    /\ AnalyzeFit.key_est_5k_sec row
       = (5000 - AnalyzeFit.distance_m rec)
         * (AnalyzeFit.timer_time_ms rec / 1000.0 / AnalyzeFit.distance_m rec)
    /\ 0 < AnalyzeFit.key_est_5k_sec row
    /\ AnalyzeFit.record_est_5k_sec rec = Some 0.
Proof.
  intros Ht Hd Hw. rewrite (key_row_positive rec Hd).
  eexists. split; [reflexivity|]. cbn.
  assert (Hr : 0 < 5000 - AnalyzeFit.distance_m rec) by lra.
  rewrite (proj2 (gt_true_iff _ _) Hr). split; [reflexivity|]. split.
  - apply Qmult_lt_0_compat; [exact Hr|].
    apply Qlt_shift_div_l; [exact Hd|]. rewrite Qmult_0_l.
    apply Qlt_shift_div_l; [reflexivity|]. rewrite Qmult_0_l. exact Ht.
  - unfold AnalyzeFit.record_est_5k_sec, AnalyzeFit.est_5k_sec.
    rewrite (fit_pace_positive _ _ Hd). cbn [Py.bind].
    unfold AnalyzeFit.estimate.
    rewrite (proj2 (gt_false_iff _ _) Hw). reflexivity.
Qed.

(** [key_row] never raises. *)
Lemma key_row_total (rec : AnalyzeFit.FitRecord) :
  exists res, AnalyzeFit.key_row rec = Some res.
Proof.
  destruct (Qlt_le_dec 0 (AnalyzeFit.distance_m rec)) as [Hd | Hd].
  - rewrite (key_row_positive rec Hd). eexists. reflexivity.
  - unfold AnalyzeFit.key_row. rewrite (proj2 (gt_false_iff _ _) Hd).
    eexists. reflexivity.
Qed.

(** No record within the window, no match. *)
Lemma matching_none (records : list AnalyzeFit.FitRecord) (key_time : Q) :
  Forall (fun r => ~ Qabs (AnalyzeFit.timer_time_cs r - key_time) < 50)
         records ->
  AnalyzeFit.matching records key_time = [].
Proof.
  unfold AnalyzeFit.matching. induction 1 as [| r l Hr _ IH].
  - reflexivity.
  - cbn [filter]. rewrite (proj2 (lt_false_iff _ _)).
    + exact IH.
    + apply Qnot_lt_le. exact Hr.
Qed.

(** X12.  The key-timestamp lookup never raises; it reports on the first
    record, in file order, whose [timer_time_cs] is within 50 of the key
    time, and prints nothing when no record is. *)
Theorem key_time_report_first_match
        (before after : list AnalyzeFit.FitRecord)
        (rec : AnalyzeFit.FitRecord) (key_time : Q) :
  Forall (fun r => ~ Qabs (AnalyzeFit.timer_time_cs r - key_time) < 50)
         before ->
  (exists res,
      AnalyzeFit.key_time_report (before ++ rec :: after) key_time
      = Some res)
  /\ (Qabs (AnalyzeFit.timer_time_cs rec - key_time) < 50 ->
      AnalyzeFit.key_time_report (before ++ rec :: after) key_time
      = AnalyzeFit.key_row rec)
  /\ AnalyzeFit.key_time_report before key_time = Some None.
Proof.
  intro Hbefore.
  pose proof (matching_none before key_time Hbefore) as Hnone.
  assert (Hsplit : AnalyzeFit.matching (before ++ rec :: after) key_time
                   = AnalyzeFit.matching (rec :: after) key_time).
  { unfold AnalyzeFit.matching in *. rewrite filter_app, Hnone.
    reflexivity. }
  split; [|split].
  - unfold AnalyzeFit.key_time_report.
    destruct (AnalyzeFit.matching (before ++ rec :: after) key_time)
      as [| r l].
    + eexists. reflexivity.
    + apply key_row_total.
  - intro Hin. unfold AnalyzeFit.key_time_report. rewrite Hsplit.
    unfold AnalyzeFit.matching. cbn [filter].
    rewrite (proj2 (lt_true_iff _ _) Hin). reflexivity.
  - unfold AnalyzeFit.key_time_report. rewrite Hnone. reflexivity.
Qed.

(** X13.  The session pace never raises: a speed that is not positive gives
    0, and a positive speed gives the pace whose product with the speed is
    1000/60.  For the speed [distance / elapsed] of a last trackpoint with
    positive time and distance it equals the min/km figure of the GPX
    summary. *)
Theorem session_pace_inverts_speed
        (avg_speed : Q) (last_point : AnalyzeGpx.Trackpoint) :
  0 < AnalyzeGpx.elapsed_sec last_point ->
  0 < AnalyzeGpx.distance_m last_point ->
  (avg_speed <= 0 -> AnalyzeFit.pace_min_per_km avg_speed = Some 0)
  /\ (0 < avg_speed ->
      exists pace,
        AnalyzeFit.pace_min_per_km avg_speed = Some pace
        /\ pace * avg_speed * 60 == 1000)
  /\ (exists fit_pace gpx_sec gpx_min,
         AnalyzeFit.pace_min_per_km
           (AnalyzeGpx.distance_m last_point
            / AnalyzeGpx.elapsed_sec last_point) = Some fit_pace
         /\ AnalyzeGpx.summary_pace last_point = Some (Some (gpx_sec, gpx_min))
         /\ gpx_sec == AnalyzeGpx.elapsed_sec last_point
                       / AnalyzeGpx.distance_m last_point
         /\ fit_pace == gpx_min).
Proof.
  intros He Hd.
  assert (Hspeed : forall v, 0 < v ->
             AnalyzeFit.pace_min_per_km v = Some (1000.0 / v / 60.0)).
  { intros v Hv. unfold AnalyzeFit.pace_min_per_km.
    rewrite (proj2 (gt_true_iff _ _) Hv), (div_positive _ _ Hv).
    cbn [Py.bind]. apply div_nonzero. intro E. discriminate E. }
  split; [|split].
  - intro H. unfold AnalyzeFit.pace_min_per_km.
    rewrite (proj2 (gt_false_iff _ _) H). reflexivity.
  - intro Hv. rewrite (Hspeed _ Hv). eexists. split; [reflexivity|].
    field. apply positive_nonzero. exact Hv.
  - assert (Hv : 0 < AnalyzeGpx.distance_m last_point
                     / AnalyzeGpx.elapsed_sec last_point).
    { apply Qlt_shift_div_l; [exact He|]. rewrite Qmult_0_l. exact Hd. }
    rewrite (Hspeed _ Hv). unfold AnalyzeGpx.summary_pace.
    rewrite (proj2 (gt_true_iff _ _) Hd), (div_positive _ _ Hd).
    cbn [Py.bind]. rewrite div_nonzero by (intro E; discriminate E).
    do 3 eexists. split; [reflexivity|]. split; [reflexivity|].
    split; [reflexivity|].
    field. split; apply positive_nonzero; assumption.
Qed.

End FitAnalyzer.

(** ** More on [analyze_gpx.py] *)

Section GpxCells.

(** [int] of an integer-valued float. *)
Lemma int_of_integer (z : Z) : Py.int (inject_Z z) = z.
Proof. unfold Py.int. cbn. apply Z.quot_1_r. Qed.

(** [int] of a float that is not negative is its floor. *)
Lemma int_of_nonnegative (x : Q) : 0 <= x -> Py.int x = Qfloor x.
Proof.
  intro H. destruct x as [n d]. unfold Py.int, Qfloor. cbn.
  apply Z.quot_div_nonneg; [|reflexivity].
  unfold Qle in H. cbn in H. lia.
Qed.

(** The floor is the one integer at or just below. *)
Lemma floor_unique (x : Q) (z : Z) :
  inject_Z z <= x -> x < inject_Z (z + 1) -> Qfloor x = z.
Proof.
  intros Hlo Hhi. apply Z.le_antisymm.
  - assert (H : (Qfloor x < z + 1)%Z).
    { rewrite Zlt_Qlt. apply Qle_lt_trans with (y := x);
        [apply Qfloor_le | exact Hhi]. }
    lia.
  - rewrite <- (Qfloor_Z z). apply Qfloor_resp_le. exact Hlo.
Qed.

(** X14.  The minutes and seconds of a [time_str] never raise and split
    the whole seconds of the time: the seconds are in 0..59 and
    [60 * minutes + seconds] is the floor of the time, negative times
    included. *)
Theorem minutes_seconds_split (elapsed : Q) :
  exists minutes seconds,
    AnalyzeGpx.minutes_seconds elapsed = Some (minutes, seconds)
    /\ (0 <= seconds < 60)%Z
    /\ (60 * minutes + seconds)%Z = Qfloor elapsed.
Proof.
  unfold AnalyzeGpx.minutes_seconds, Py.floordiv, Py.mod_.
  replace (Qeq_bool 60 0) with false by reflexivity. cbn [Py.bind].
  set (q := Qfloor (elapsed / 60)).
  set (r := elapsed - 60 * inject_Z q).
  assert (Hq1 : inject_Z q <= elapsed / 60) by apply Qfloor_le.
  assert (Hq2 : elapsed / 60 < inject_Z (q + 1)) by apply Qlt_floor.
  rewrite inject_Z_plus in Hq2.
  assert (E : elapsed == elapsed / 60 * 60) by (field; discriminate).
  assert (Hr1 : 0 <= r) by (unfold r; lra).
  assert (Hr2 : r < 60).
  { unfold r. change (inject_Z 1) with 1 in Hq2. lra. }
  exists (Py.int (inject_Z q)), (Py.int r).
  split; [reflexivity|]. rewrite int_of_integer, (int_of_nonnegative r Hr1).
  assert (Hfloor : Qfloor r = (Qfloor elapsed - 60 * q)%Z).
  { apply floor_unique.
    - unfold Zminus. rewrite inject_Z_plus, inject_Z_opp, inject_Z_mult.
      pose proof (Qfloor_le elapsed) as H. unfold r.
      change (inject_Z 60) with 60. lra.
    - replace (Qfloor elapsed - 60 * q + 1)%Z
        with ((Qfloor elapsed + 1) + - (60 * q))%Z by lia.
      rewrite inject_Z_plus, inject_Z_opp, inject_Z_mult.
      pose proof (Qlt_floor elapsed) as H. unfold r.
      change (inject_Z 60) with 60. lra. }
  split; [|rewrite Hfloor; lia].
  split.
  - rewrite <- (Qfloor_Z 0). apply Qfloor_resp_le. exact Hr1.
  - rewrite Zlt_Qlt. apply Qle_lt_trans with (y := r);
      [apply Qfloor_le | exact Hr2].
Qed.

(** The four outcomes of a trackpoint: lines 165-181. *)
Lemma gpx_warmup (elapsed_sec distance_m : Q) :
  distance_m < 100 ->
  AnalyzeGpx.est_5k elapsed_sec distance_m = Some AnalyzeGpx.Warmup.
Proof.
  intro H. unfold AnalyzeGpx.est_5k.
  assert (E : Py.ge distance_m 100 = false) by (apply le_false_iff; exact H).
  destruct (Qlt_le_dec 0 distance_m) as [Hd | Hd].
  - rewrite (gpx_pace_positive _ _ Hd). cbn [Py.bind].
    unfold AnalyzeGpx.estimate. rewrite E. reflexivity.
  - rewrite (gpx_pace_no_distance _ _ Hd). cbn [Py.bind].
    unfold AnalyzeGpx.estimate. rewrite E. reflexivity.
Qed.

Lemma hundred_le_positive (d : Q) : 100 <= d -> 0 < d.
Proof.
  intro H. apply Qlt_le_trans with (y := 100); [reflexivity | exact H].
Qed.

Lemma gpx_insane (elapsed_sec distance_m : Q) :
  100 <= distance_m ->
  ~ 0.05 <= elapsed_sec / distance_m <= 20.0 ->
  AnalyzeGpx.est_5k elapsed_sec distance_m = Some AnalyzeGpx.Insane.
Proof.
  intros Hd Hp. unfold AnalyzeGpx.est_5k.
  rewrite (gpx_pace_positive _ _ (hundred_le_positive _ Hd)).
  cbn [Py.bind]. unfold AnalyzeGpx.estimate.
  rewrite (proj2 (ge_true_iff _ _) Hd). cbn [andb negb].
  destruct (Py.le 0.05 (elapsed_sec / distance_m)
            && Py.le (elapsed_sec / distance_m) 20.0) eqn:E;
    [|reflexivity].
  apply sane_test_true in E. contradiction.
Qed.

Lemma gpx_hit (elapsed_sec distance_m : Q) :
  0.05 <= elapsed_sec / distance_m <= 20.0 ->
  5000 <= distance_m ->
  AnalyzeGpx.est_5k elapsed_sec distance_m = Some AnalyzeGpx.Hit.
Proof.
  intros Hp Hd. assert (Hw : 100 <= distance_m) by lra.
  unfold AnalyzeGpx.est_5k.
  rewrite (gpx_pace_positive _ _ (hundred_le_positive _ Hw)).
  cbn [Py.bind]. rewrite (gpx_estimate_guarded _ _ Hw Hp).
  rewrite (proj2 (gt_false_iff _ _)) by lra. reflexivity.
Qed.

Lemma gpx_shown (elapsed_sec distance_m : Q) :
  100 <= distance_m ->
  distance_m < 5000 ->
  0.05 <= elapsed_sec / distance_m <= 20.0 ->
  exists m s,
    AnalyzeGpx.est_5k elapsed_sec distance_m
    = Some (AnalyzeGpx.Shown
              ((5000 - distance_m) * (elapsed_sec / distance_m)) m s).
Proof.
  intros Hw Hd Hp. unfold AnalyzeGpx.est_5k.
  rewrite (gpx_pace_positive _ _ (hundred_le_positive _ Hw)).
  cbn [Py.bind]. rewrite (gpx_estimate_guarded _ _ Hw Hp).
  rewrite (proj2 (gt_true_iff _ _)) by lra. eexists. eexists. reflexivity.
Qed.

Lemma sane_dec (pace : Q) :
  {0.05 <= pace <= 20.0} + {~ 0.05 <= pace <= 20.0}.
Proof.
  destruct (Qlt_le_dec pace 0.05) as [H | H].
  - right. intros [H' _]. exact (Qlt_not_le _ _ H H').
  - destruct (Qlt_le_dec 20.0 pace) as [H2 | H2].
    + right. intros [_ H']. exact (Qlt_not_le _ _ H2 H').
    + left. split; assumption.
Qed.

(** X15.  The cell of a trackpoint is decided by the distance first and the
    pace second: WARMUP exactly below 100 m, whatever the pace (a zero or
    negative distance included); from 100 m on, INSANE exactly when the pace
    is outside [0.05, 20.0], HIT exactly when the pace is sane and the
    distance has reached 5000, and an estimate otherwise. *)
Theorem gpx_cell_classification (elapsed_sec distance_m : Q) :
  exists cell,
    AnalyzeGpx.est_5k elapsed_sec distance_m = Some cell
    /\ (cell = AnalyzeGpx.Warmup <-> distance_m < 100)
    /\ (cell = AnalyzeGpx.Insane
        <-> 100 <= distance_m
            /\ ~ 0.05 <= elapsed_sec / distance_m <= 20.0)
    /\ (cell = AnalyzeGpx.Hit
        <-> 5000 <= distance_m
            /\ 0.05 <= elapsed_sec / distance_m <= 20.0)
    /\ ((exists m s,
            cell = AnalyzeGpx.Shown
                     ((5000 - distance_m) * (elapsed_sec / distance_m)) m s)
        <-> 100 <= distance_m /\ distance_m < 5000
            /\ 0.05 <= elapsed_sec / distance_m <= 20.0).
Proof.
  destruct (Qlt_le_dec distance_m 100) as [Hw | Hw].
  { rewrite (gpx_warmup _ _ Hw). eexists. split; [reflexivity|].
    split; [tauto|]. split; [|split].
    - split; [discriminate|]. intros [H _]. exfalso. lra.
    - split; [discriminate|]. intros [H _]. exfalso. lra.
    - split; [intros (m & s & H); discriminate H|].
      intros (H & _). exfalso. lra. }
  destruct (sane_dec (elapsed_sec / distance_m)) as [Hp | Hp].
  - destruct (Qlt_le_dec distance_m 5000) as [Hd | Hd].
    + destruct (gpx_shown _ _ Hw Hd Hp) as (m & s & E). rewrite E.
      eexists. split; [reflexivity|]. split; [|split; [|split]].
      * split; [discriminate|]. intro H. exfalso. lra.
      * split; [discriminate|]. intros [_ H]. contradiction.
      * split; [discriminate|]. intros [H _]. exfalso. lra.
      * split; [tauto|]. intros _. exists m, s. reflexivity.
    + rewrite (gpx_hit _ _ Hp Hd). eexists. split; [reflexivity|].
      split; [|split; [|split]].
      * split; [discriminate|]. intro H. exfalso. lra.
      * split; [discriminate|]. intros [_ H]. contradiction.
      * tauto.
      * split; [intros (m & s & H); discriminate H|].
        intros (_ & H & _). exfalso. lra.
  - rewrite (gpx_insane _ _ Hw Hp). eexists. split; [reflexivity|].
    split; [|split; [|split]].
    + split; [discriminate|]. intro H. exfalso. lra.
    + tauto.
    + split; [discriminate|]. intros [_ H]. contradiction.
    + split; [intros (m & s & H); discriminate H|].
      intros (_ & _ & H). contradiction.
Qed.

End GpxCells.

Section AnalyzersAgree.

Lemma fit_in_warmup (timer_ms distance_m : Q) :
  distance_m <= 100 -> AnalyzeFit.est_5k_sec timer_ms distance_m = Some 0.
Proof.
  intro Hw. destruct (fit_est_total timer_ms distance_m) as (e & He & _).
  unfold AnalyzeFit.est_5k_sec in *.
  destruct (AnalyzeFit.pace_sec_per_m timer_ms distance_m) as [pace |];
    [|discriminate He].
  cbn [Py.bind]. unfold AnalyzeFit.estimate.
  rewrite (proj2 (gt_false_iff _ _) Hw). reflexivity.
Qed.

Lemma fit_estimate_insane (distance_m pace : Q) :
  ~ 0.05 <= pace <= 20.0 -> AnalyzeFit.estimate distance_m pace = 0.
Proof.
  intro Hp. unfold AnalyzeFit.estimate.
  destruct (Py.le 0.05 pace && Py.le pace 20.0) eqn:E.
  - apply sane_test_true in E. contradiction.
  - rewrite andb_false_r. reflexivity.
Qed.

(** X16.  Away from a distance of exactly 100 the two analyzers agree on
    every trackpoint: where [analyze_gpx.py] shows an estimate,
    [analyze_fit.py] computes the same number from the time in
    milliseconds, and where it shows WARMUP, INSANE or HIT,
    [analyze_fit.py] gives 0. *)
Theorem analyzers_agree_off_boundary (elapsed_sec distance_m : Q) :
  ~ distance_m == 100 ->
  exists e cell,
    AnalyzeFit.est_5k_sec (elapsed_sec * 1000) distance_m = Some e
    /\ AnalyzeGpx.est_5k elapsed_sec distance_m = Some cell
    /\ match cell with
       | AnalyzeGpx.Shown e' _ _ => e == e'
       | _ => e = 0
       end.
Proof.
  intro Hne.
  destruct (Qlt_le_dec distance_m 100) as [Hw | Hw].
  { rewrite (gpx_warmup _ _ Hw), fit_in_warmup by lra.
    do 2 eexists. split; [reflexivity|]. split; reflexivity. }
  assert (Hw' : 100 < distance_m).
  { apply Qle_lteq in Hw. destruct Hw as [H | H]; [exact H|].
    exfalso. apply Hne. symmetry. exact H. }
  pose proof (hundred_positive _ Hw') as Hd0.
  assert (Epace : elapsed_sec * 1000 / 1000.0 / distance_m
                  == elapsed_sec / distance_m).
  { field. apply positive_nonzero. exact Hd0. }
  unfold AnalyzeFit.est_5k_sec. rewrite (fit_pace_positive _ _ Hd0).
  cbn [Py.bind].
  destruct (sane_dec (elapsed_sec / distance_m)) as [Hp | Hp].
  - assert (Hp' : 0.05 <= elapsed_sec * 1000 / 1000.0 / distance_m <= 20.0).
    { rewrite Epace. exact Hp. }
    rewrite (fit_estimate_guarded _ _ Hw' Hp').
    destruct (Qlt_le_dec distance_m 5000) as [Hd | Hd].
    + destruct (gpx_shown _ _ Hw Hd Hp) as (m & s & E). rewrite E.
      rewrite (proj2 (gt_true_iff _ _)) by lra.
      do 2 eexists. split; [reflexivity|]. split; [reflexivity|].
      cbn. rewrite Epace. reflexivity.
    + rewrite (gpx_hit _ _ Hp Hd).
      rewrite (proj2 (gt_false_iff _ _)) by lra.
      do 2 eexists. split; [reflexivity|]. split; reflexivity.
  - rewrite (gpx_insane _ _ Hw Hp), fit_estimate_insane.
    + do 2 eexists. split; [reflexivity|]. split; reflexivity.
    + rewrite Epace. exact Hp.
Qed.

(** A trackpoint 600 s into the run at 1500 m. *)
Lemma analyzers_agree_witness :
  exists e cell,
    AnalyzeFit.est_5k_sec (600 * 1000) 1500 = Some e
    /\ AnalyzeGpx.est_5k 600 1500 = Some cell
    /\ match cell with
       | AnalyzeGpx.Shown e' _ _ => e == e'
       | _ => e = 0
       end.
Proof.
  apply (analyzers_agree_off_boundary 600 1500). evaluate_closed.
Defined.

End AnalyzersAgree.

(** ** The extraction loop of [parse_gpx] *)

Section Extraction.

(** The last item of a list that has one does not depend on the default. *)
Lemma last_of_nonempty {A : Type} (l : list A) :
  forall (x d1 d2 : A), last (x :: l) d1 = last (x :: l) d2.
Proof.
  induction l as [| y l IH]; intros x d1 d2.
  - reflexivity.
  - cbn [last] in *. apply IH.
Qed.

Variable haversine : Q -> Q -> Q -> Q -> Q.

(** The loop from any state appends one trackpoint per element, each
    carrying its element with the time counted from the start in force. *)
Lemma extract_from_carries (trkpts : list AnalyzeGpx.TrkPt) :
  forall st,
  exists added,
    AnalyzeGpx.trackpoints (fold_left (AnalyzeGpx.extract_step haversine) trkpts st)
    = AnalyzeGpx.trackpoints st ++ added
    /\ Forall2 (carries (start_in_force st trkpts)) trkpts added.
Proof.
  induction trkpts as [| e rest IH]; intro st.
  - exists []. cbn. rewrite app_nil_r. auto.
  - cbn [fold_left]. destruct (IH (AnalyzeGpx.extract_step haversine st e)) as (added & Htps & Hcar).
    eexists. split.
    + rewrite Htps. unfold AnalyzeGpx.extract_step. cbn.
      rewrite <- app_assoc. reflexivity.
    + assert (E : start_in_force (AnalyzeGpx.extract_step haversine st e) rest
                  = start_in_force st (e :: rest)).
      { unfold start_in_force, AnalyzeGpx.extract_step. cbn.
        destruct (AnalyzeGpx.start_time st);
          destruct (AnalyzeGpx.trk_time e); reflexivity. }
      rewrite E in Hcar. constructor; [|exact Hcar].
      unfold carries, start_in_force. cbn.
      destruct (AnalyzeGpx.start_time st);
        destruct (AnalyzeGpx.trk_time e); repeat split; reflexivity.
Qed.

Hypothesis haversine_nonnegative :
  forall lon1 lat1 lon2 lat2, 0 <= haversine lon1 lat1 lon2 lat2.

(** The loop from any state appends distances that start at or above the
    running total, never decrease, and end at the new running total. *)
Lemma extract_from_distances (trkpts : list AnalyzeGpx.TrkPt) :
  forall st,
  exists added,
    AnalyzeGpx.trackpoints (fold_left (AnalyzeGpx.extract_step haversine) trkpts st)
    = AnalyzeGpx.trackpoints st ++ added
    /\ List.length added = List.length trkpts
    /\ StronglySorted Qle
         (AnalyzeGpx.cumulative_distance st
          :: map AnalyzeGpx.distance_m added)
    /\ AnalyzeGpx.cumulative_distance (fold_left (AnalyzeGpx.extract_step haversine) trkpts st)
       = last (map AnalyzeGpx.distance_m added)
              (AnalyzeGpx.cumulative_distance st)
    /\ (AnalyzeGpx.prev_lat st = None ->
        forall first others,
          added = first :: others ->
          AnalyzeGpx.distance_m first = AnalyzeGpx.cumulative_distance st).
Proof.
  induction trkpts as [| e rest IH]; intro st.
  - exists []. cbn. rewrite app_nil_r.
    repeat split; try reflexivity.
    + constructor; constructor.
    + intros _ first others H. discriminate H.
  - cbn [fold_left].
    destruct (IH (AnalyzeGpx.extract_step haversine st e)) as (added & Htps & Hlen & Hsorted & Hlast & _).
    assert (Hstep : exists new,
               AnalyzeGpx.trackpoints (AnalyzeGpx.extract_step haversine st e)
               = AnalyzeGpx.trackpoints st ++ [new]
               /\ AnalyzeGpx.distance_m new
                  = AnalyzeGpx.cumulative_distance (AnalyzeGpx.extract_step haversine st e)).
    { eexists. split; [reflexivity|]. reflexivity. }
    destruct Hstep as (new & Hnew & Hdist).
    assert (Hgrow : AnalyzeGpx.cumulative_distance st
                    <= AnalyzeGpx.cumulative_distance (AnalyzeGpx.extract_step haversine st e)).
    { unfold AnalyzeGpx.extract_step. cbn.
      destruct (AnalyzeGpx.prev_lat st) as [plat |];
        [destruct (AnalyzeGpx.prev_lon st) as [plon |]|];
        try apply Qle_refl.
      pose proof (haversine_nonnegative
                    plon plat (AnalyzeGpx.trk_lon e) (AnalyzeGpx.trk_lat e)).
      lra. }
    exists (new :: added). split; [|split; [|split; [|split]]].
    + rewrite Htps, Hnew, <- app_assoc. reflexivity.
    + cbn. rewrite Hlen. reflexivity.
    + cbn [map]. rewrite Hdist.
      inversion Hsorted as [| a l Hs Hall]; subst.
      constructor; [exact Hsorted|].
      constructor; [exact Hgrow|].
      eapply Forall_impl; [|exact Hall]. cbn. intros x Hx.
      apply Qle_trans
        with (y := AnalyzeGpx.cumulative_distance
                     (AnalyzeGpx.extract_step haversine st e));
        assumption.
    + rewrite Hlast. cbn [map]. rewrite Hdist.
      destruct (map AnalyzeGpx.distance_m added) as [| q l]; [reflexivity|].
      cbn [last]. apply last_of_nonempty.
    + intros Hprev first others H. injection H as <- _. rewrite Hdist.
      unfold AnalyzeGpx.extract_step. cbn. rewrite Hprev. reflexivity.
Qed.

End Extraction.

Section ExtractionLaws.

(** X17.  Whatever non-negative distance function stands for [haversine],
    the extraction loop yields one trackpoint per [trkpt] element, the
    first at distance 0, with cumulative distances that never decrease, and
    leaves the running total at the last trackpoint's distance. *)
Theorem extract_distances_never_decrease
        (haversine : Q -> Q -> Q -> Q -> Q)
        (trkpts : list AnalyzeGpx.TrkPt) :
  (forall lon1 lat1 lon2 lat2, 0 <= haversine lon1 lat1 lon2 lat2) ->
  let ex := AnalyzeGpx.extract haversine trkpts in
  List.length (AnalyzeGpx.trackpoints ex) = List.length trkpts
  /\ StronglySorted Qle
       (map AnalyzeGpx.distance_m (AnalyzeGpx.trackpoints ex))
  /\ (forall first others,
         AnalyzeGpx.trackpoints ex = first :: others ->
         AnalyzeGpx.distance_m first = 0.0)
  /\ AnalyzeGpx.cumulative_distance ex
     = last (map AnalyzeGpx.distance_m (AnalyzeGpx.trackpoints ex)) 0.0.
Proof.
  intros Hnn ex.
  destruct (extract_from_distances haversine Hnn trkpts
                                   AnalyzeGpx.extraction_start)
    as (added & Htps & Hlen & Hsorted & Hlast & Hfirst).
  cbn [AnalyzeGpx.extraction_start AnalyzeGpx.trackpoints app] in Htps.
  cbn [AnalyzeGpx.extraction_start AnalyzeGpx.cumulative_distance
       AnalyzeGpx.prev_lat] in Hsorted, Hlast, Hfirst.
  unfold ex, AnalyzeGpx.extract. rewrite Htps.
  split; [exact Hlen|]. split.
  - inversion Hsorted; assumption.
  - split; [|exact Hlast].
    intros first others E. exact (Hfirst eq_refl first others E).
Qed.

(** X18.  Every trackpoint carries its element's coordinates, heart rate,
    cadence and time stamp; its elapsed time is counted from the first time
    stamp present in the file, and is 0 for an element without one; its
    centiseconds are a hundred times its seconds. *)
Theorem extract_carries_elements
        (haversine : Q -> Q -> Q -> Q -> Q)
        (trkpts : list AnalyzeGpx.TrkPt) :
  Forall2 (carries (first_time trkpts)) trkpts
          (AnalyzeGpx.trackpoints (AnalyzeGpx.extract haversine trkpts)).
Proof.
  destruct (extract_from_carries haversine trkpts
                                 AnalyzeGpx.extraction_start)
    as (added & Htps & Hcar).
  unfold AnalyzeGpx.extract. rewrite Htps. exact Hcar.
Qed.

(** Three elements a few hundredths of a degree apart, under the sum of
    the two coordinate differences. *)
Lemma extract_distances_witness :
  let ex :=
    AnalyzeGpx.extract
      (fun lon1 lat1 lon2 lat2 => Qabs (lon2 - lon1) + Qabs (lat2 - lat1))
      [AnalyzeGpx.mkTrkPt 52.00 4.00 (Some 0) None None None;
       AnalyzeGpx.mkTrkPt 52.01 4.00 (Some 10) None None None;
       AnalyzeGpx.mkTrkPt 52.01 4.02 None None None None] in
  List.length (AnalyzeGpx.trackpoints ex) = 3%nat
  /\ StronglySorted Qle
       (map AnalyzeGpx.distance_m (AnalyzeGpx.trackpoints ex))
  /\ (forall first others,
         AnalyzeGpx.trackpoints ex = first :: others ->
         AnalyzeGpx.distance_m first = 0.0)
  /\ AnalyzeGpx.cumulative_distance ex
     = last (map AnalyzeGpx.distance_m (AnalyzeGpx.trackpoints ex)) 0.0.
Proof.
  apply (extract_distances_never_decrease
           (fun lon1 lat1 lon2 lat2 => Qabs (lon2 - lon1) + Qabs (lat2 - lat1))
           [AnalyzeGpx.mkTrkPt 52.00 4.00 (Some 0) None None None;
            AnalyzeGpx.mkTrkPt 52.01 4.00 (Some 10) None None None;
            AnalyzeGpx.mkTrkPt 52.01 4.02 None None None None]).
  intros lon1 lat1 lon2 lat2.
  pose proof (Qabs_nonneg (lon2 - lon1)) as H1.
  pose proof (Qabs_nonneg (lat2 - lat1)) as H2. lra.
Defined.

End ExtractionLaws.

(** ** The table of [parse_gpx] *)

Section GpxTable.

Lemma insert_in (i x : nat) (l : list nat) :
  In x (PySeq.insert i l) <-> x = i \/ In x l.
Proof.
  induction l as [| j rest IH]; cbn [PySeq.insert].
  - cbn. intuition.
  - destruct (i <? j)%nat eqn:Hlt; [cbn; intuition|].
    destruct (i =? j)%nat eqn:Heq.
    + apply Nat.eqb_eq in Heq. subst. cbn. intuition.
    + cbn [In]. rewrite IH. intuition.
Qed.

Lemma insert_sorted (i : nat) (l : list nat) :
  StronglySorted lt l -> StronglySorted lt (PySeq.insert i l).
Proof.
  induction 1 as [| j rest Hs IH Hall]; cbn [PySeq.insert].
  - constructor; constructor.
  - destruct (i <? j)%nat eqn:Hlt.
    + apply Nat.ltb_lt in Hlt. constructor.
      * constructor; assumption.
      * constructor; [exact Hlt|].
        eapply Forall_impl; [|exact Hall]. cbn. intros. lia.
    + destruct (i =? j)%nat eqn:Heq.
      * constructor; assumption.
      * apply Nat.ltb_ge in Hlt. apply Nat.eqb_neq in Heq.
        constructor; [exact IH|].
        apply Forall_forall. intros x Hx. apply insert_in in Hx.
        destruct Hx as [-> | Hx]; [lia|].
        rewrite Forall_forall in Hall. apply Hall. exact Hx.
Qed.

(** [sorted(set(l))] has the elements of [l], in strictly increasing
    order. *)
Lemma sorted_set_spec (l : list nat) :
  StronglySorted lt (PySeq.sorted_set l)
  /\ forall x, In x (PySeq.sorted_set l) <-> In x l.
Proof.
  unfold PySeq.sorted_set. induction l as [| i l [IHs IHi]]; cbn [fold_right].
  - split; [constructor | reflexivity].
  - split; [apply insert_sorted; exact IHs|].
    intro x. rewrite insert_in, IHi. cbn. intuition.
Qed.

Lemma hundred_metre_test (pt : AnalyzeGpx.Trackpoint) :
  Py.ge (AnalyzeGpx.distance_m pt) 100
  && (Py.int (AnalyzeGpx.distance_m pt) mod 100 =? 0)%Z = true
  <-> at_hundred_metres pt.
Proof.
  unfold at_hundred_metres.
  rewrite andb_true_iff, ge_true_iff, Z.eqb_eq. reflexivity.
Qed.

Lemma hundred_metre_indices_spec (pts : list AnalyzeGpx.Trackpoint) :
  forall k i,
    In i (AnalyzeGpx.hundred_metre_indices k pts)
    <-> (k <= i)%nat
        /\ exists pt, nth_error pts (i - k) = Some pt /\ at_hundred_metres pt.
Proof.
  induction pts as [| pt rest IH]; intros k i;
    cbn [AnalyzeGpx.hundred_metre_indices].
  - cbn. split; [contradiction|]. intros (_ & p & H & _).
    destruct (i - k)%nat; discriminate H.
  - assert (Hrest : In i (AnalyzeGpx.hundred_metre_indices (S k) rest)
                    <-> (S k <= i)%nat
                        /\ exists p, nth_error (pt :: rest) (i - k) = Some p
                                     /\ at_hundred_metres p).
    { rewrite IH. split; intros (Hle & p & Hn & Hp).
      - split; [exact Hle|]. exists p. split; [|exact Hp].
        replace (i - k)%nat with (S (i - S k)) by lia. exact Hn.
      - split; [exact Hle|]. exists p. split; [|exact Hp].
        replace (i - k)%nat with (S (i - S k)) in Hn by lia. exact Hn. }
    destruct (Py.ge (AnalyzeGpx.distance_m pt) 100
              && (Py.int (AnalyzeGpx.distance_m pt) mod 100 =? 0)%Z) eqn:Ht.
    + apply hundred_metre_test in Ht. cbn [In]. rewrite Hrest.
      split.
      * intros [<- | (Hle & H)].
        -- split; [lia|]. exists pt. rewrite Nat.sub_diag. auto.
        -- split; [lia | exact H].
      * intros (Hle & p & Hn & Hp).
        destruct (Nat.eq_dec k i) as [E | E]; [left; exact E|].
        right. split; [lia|]. exists p. auto.
    + rewrite Hrest. split.
      * intros (Hle & H). split; [lia | exact H].
      * intros (Hle & p & Hn & Hp).
        destruct (Nat.eq_dec k i) as [E | E].
        -- exfalso. subst. rewrite Nat.sub_diag in Hn. cbn in Hn.
           injection Hn as <-. apply hundred_metre_test in Hp. congruence.
        -- split; [lia|]. exists p. auto.
Qed.

(** What line 146 keeps: index 0, the last index and the hundred-metre
    indices. *)
Lemma sample_indices_in (pts : list AnalyzeGpx.Trackpoint) (i : nat) :
  In i (AnalyzeGpx.sample_indices pts)
  <-> i = 0%nat \/ i = (List.length pts - 1)%nat
      \/ exists pt, nth_error pts i = Some pt /\ at_hundred_metres pt.
Proof.
  unfold AnalyzeGpx.sample_indices.
  rewrite (proj2 (sorted_set_spec _)).
  cbn [app In]. rewrite in_app_iff, hundred_metre_indices_spec.
  rewrite Nat.sub_0_r. cbn [In]. split.
  - intros [H | [(_ & H) | [H | []]]]; auto.
  - intros [H | [H | H]]; auto. right. left. split; [lia | exact H].
Qed.

Lemma sample_indices_range (pts : list AnalyzeGpx.Trackpoint) :
  pts <> [] ->
  Forall (fun i => (i < List.length pts)%nat) (AnalyzeGpx.sample_indices pts).
Proof.
  intro Hne. apply Forall_forall. intros i Hin.
  apply sample_indices_in in Hin.
  assert (Hpos : (0 < List.length pts)%nat).
  { destruct pts; [contradiction | cbn; lia]. }
  destruct Hin as [-> | [-> | (pt & Hn & _)]]; try lia.
  apply nth_error_Some. congruence.
Qed.

Lemma minutes_seconds_returns (elapsed : Q) :
  exists t, AnalyzeGpx.minutes_seconds elapsed = Some t.
Proof.
  unfold AnalyzeGpx.minutes_seconds, Py.floordiv, Py.mod_.
  replace (Qeq_bool 60 0) with false by reflexivity.
  eexists. reflexivity.
Qed.

(** X19.  For a track with at least one point, the sampled indices are
    strictly increasing (so none repeats), all within the track, and are
    exactly index 0, the last index, and the indices of the points at 100 m
    or more whose whole metres are a multiple of 100. *)
Theorem sample_indices_spec (pts : list AnalyzeGpx.Trackpoint) :
  pts <> [] ->
  StronglySorted lt (AnalyzeGpx.sample_indices pts)
  /\ Forall (fun i => (i < List.length pts)%nat)
            (AnalyzeGpx.sample_indices pts)
  /\ forall i,
      In i (AnalyzeGpx.sample_indices pts)
      <-> i = 0%nat \/ i = (List.length pts - 1)%nat
          \/ exists pt, nth_error pts i = Some pt /\ at_hundred_metres pt.
Proof.
  intro Hne. split; [|split].
  - unfold AnalyzeGpx.sample_indices. apply sorted_set_spec.
  - apply sample_indices_range. exact Hne.
  - intro i. apply sample_indices_in.
Qed.

(** A loop whose body returns on every item returns, item by item. *)
Lemma for_each_returns {A B : Type} (body : A -> option B)
      (P : A -> B -> Prop) (l : list A) :
  Forall (fun x => exists y, body x = Some y /\ P x y) l ->
  exists ys, PySeq.for_each body l = Some ys /\ Forall2 P l ys.
Proof.
  induction 1 as [| x rest (y & Hy & Hp) _ (ys & Hys & Hall)].
  - exists []. split; [reflexivity | constructor].
  - exists (y :: ys). cbn [PySeq.for_each]. rewrite Hy. cbn [Py.bind].
    rewrite Hys. cbn [Py.bind]. split; [reflexivity|].
    constructor; assumption.
Qed.

(** The rows of the table, index by index. *)
Lemma table_rows (pts : list AnalyzeGpx.Trackpoint) :
  pts <> [] ->
  exists rows,
    AnalyzeGpx.table pts = Some rows
    /\ Forall2 (fun i row =>
                  exists pt,
                    nth_error pts i = Some pt
                    /\ AnalyzeGpx.row_distance_m row
                       = AnalyzeGpx.distance_m pt
                    /\ AnalyzeGpx.est_5k (AnalyzeGpx.elapsed_sec pt)
                                         (AnalyzeGpx.distance_m pt)
                       = Some (AnalyzeGpx.row_cell row))
               (AnalyzeGpx.sample_indices pts) rows.
Proof.
  intro Hne. unfold AnalyzeGpx.table. apply for_each_returns.
  pose proof (sample_indices_range pts Hne) as Hrange.
  eapply Forall_impl; [|exact Hrange]. cbn. intros i Hi.
  apply nth_error_Some in Hi.
  destruct (nth_error pts i) as [pt |] eqn:Hpt; [|contradiction].
  unfold AnalyzeGpx.table_row. rewrite Hpt. cbn [Py.bind].
  destruct (minutes_seconds_returns (AnalyzeGpx.elapsed_sec pt))
    as (t & Ht). rewrite Ht. cbn [Py.bind].
  destruct (gpx_est_total (AnalyzeGpx.elapsed_sec pt)
                          (AnalyzeGpx.distance_m pt)) as (cell & Hcell).
  unfold AnalyzeGpx.est_5k in Hcell |- *.
  destruct (AnalyzeGpx.pace_sec_per_m (AnalyzeGpx.elapsed_sec pt)
                                      (AnalyzeGpx.distance_m pt))
    as [pace |] eqn:Hpace; [|discriminate Hcell].
  cbn [Py.bind] in Hcell |- *. rewrite Hcell. cbn [Py.bind].
  eexists. split; [reflexivity|]. exists pt. cbn.
  split; [reflexivity|]. split; [reflexivity|].
  rewrite Hpace. exact Hcell.
Qed.


(** X20.  For a track with at least one point the table never raises: no
    index is out of range and no division is by zero.  It has one row per
    sampled index, and each row shows the distance of the trackpoint at its
    index and the cell [est_5k] gives for it. *)
Theorem table_returns (pts : list AnalyzeGpx.Trackpoint) :
  pts <> [] ->
  exists rows,
    AnalyzeGpx.table pts = Some rows
    /\ Forall2 (fun i row =>
                  exists pt,
                    nth_error pts i = Some pt
                    /\ AnalyzeGpx.row_distance_m row
                       = AnalyzeGpx.distance_m pt
                    /\ AnalyzeGpx.est_5k (AnalyzeGpx.elapsed_sec pt)
                                         (AnalyzeGpx.distance_m pt)
                       = Some (AnalyzeGpx.row_cell row))
               (AnalyzeGpx.sample_indices pts) rows.
Proof. exact (table_rows pts). Qed.

End GpxTable.

(** ** The milestones and the report of [parse_gpx] *)

Section GpxReport.

(** The scan of [min] ends on an item of the list with the least key, and
    keeps its first candidate when no later key is strictly smaller. *)
Lemma min_from_spec {A : Type} (key : A -> Q) (l : list A) :
  forall best,
    In (PySeq.min_from key best l) (best :: l)
    /\ Forall (fun x => key (PySeq.min_from key best l) <= key x)
              (best :: l)
    /\ (Forall (fun x => key best <= key x) l ->
        PySeq.min_from key best l = best).
Proof.
  induction l as [| x rest IH]; intro best; cbn [PySeq.min_from].
  - split; [left; reflexivity|]. split; [|reflexivity].
    constructor; [apply Qle_refl | constructor].
  - destruct (Py.lt (key x) (key best)) eqn:Hlt.
    + apply lt_true_iff in Hlt. destruct (IH x) as (Hin & Hall & _).
      split; [|split].
      * destruct Hin as [E | Hin]; [right; left; exact E|].
        right. right. exact Hin.
      * inversion Hall as [| a l' Hx Hrest]; subst.
        constructor; [|constructor; assumption].
        apply Qle_trans with (y := key x); [exact Hx|].
        apply Qlt_le_weak. exact Hlt.
      * intro H. inversion H as [| a l' Hx _]; subst. exfalso.
        exact (Qlt_not_le _ _ Hlt Hx).
    + apply lt_false_iff in Hlt. destruct (IH best) as (Hin & Hall & Hkeep).
      split; [|split].
      * destruct Hin as [E | Hin]; [left; exact E|].
        right. right. exact Hin.
      * inversion Hall as [| a l' Hb Hrest]; subst.
        constructor; [exact Hb|]. constructor; [|exact Hrest].
        apply Qle_trans with (y := key best); assumption.
      * intro H. inversion H; subst. apply Hkeep. assumption.
Qed.

(** The point line 202 picks. *)
Lemma closest_point (first : AnalyzeGpx.Trackpoint)
      (rest : list AnalyzeGpx.Trackpoint) (target_dist : Q) :
  exists c,
    AnalyzeGpx.closest (first :: rest) target_dist = Some c
    /\ In c (first :: rest)
    /\ Forall (fun p => gap target_dist c <= gap target_dist p)
              (first :: rest)
    /\ (Forall (fun p => gap target_dist first <= gap target_dist p) rest ->
        c = first).
Proof.
  unfold AnalyzeGpx.closest, PySeq.min_by.
  destruct (min_from_spec (fun p => Qabs (AnalyzeGpx.distance_m p
                                          - target_dist)) rest first)
    as (Hin & Hall & Hkeep).
  eexists. split; [reflexivity|]. split; [exact Hin|].
  split; [exact Hall | exact Hkeep].
Qed.

(** X21.  On a track with at least one point, line 202 picks a point of
    the track whose distance is nearest to the target, and it is the first
    point when no later point is strictly nearer; on an empty track [min]
    raises. *)
Theorem closest_is_nearest (first : AnalyzeGpx.Trackpoint)
        (rest : list AnalyzeGpx.Trackpoint) (target_dist : Q) :
  (exists c,
      AnalyzeGpx.closest (first :: rest) target_dist = Some c
      /\ In c (first :: rest)
      /\ Forall (fun p => gap target_dist c <= gap target_dist p)
                (first :: rest)
      /\ (Forall (fun p => gap target_dist first <= gap target_dist p) rest ->
          c = first))
  /\ AnalyzeGpx.closest [] target_dist = None.
Proof.
  split; [apply closest_point | reflexivity].
Qed.

(** One milestone on a track with at least one point, for a target of 50
    or more. *)
Lemma milestone_returns (first : AnalyzeGpx.Trackpoint)
      (rest : list AnalyzeGpx.Trackpoint) (target_dist : Q) :
  50 <= target_dist ->
  exists mark,
    AnalyzeGpx.milestone (first :: rest) target_dist = Some mark
    /\ forall m,
        mark = Some m ->
        target_dist - 50 < AnalyzeGpx.milestone_distance_m m
        /\ AnalyzeGpx.milestone_pace_sec_per_m m
           = AnalyzeGpx.milestone_elapsed_sec m
             / AnalyzeGpx.milestone_distance_m m
        /\ exists c,
            In c (first :: rest)
            /\ AnalyzeGpx.distance_m c = AnalyzeGpx.milestone_distance_m m
            /\ AnalyzeGpx.elapsed_sec c = AnalyzeGpx.milestone_elapsed_sec m.
Proof.
  intro Htarget.
  destruct (closest_point first rest target_dist) as (c & Hc & Hin & _).
  unfold AnalyzeGpx.milestone. rewrite Hc. cbn [Py.bind].
  destruct (Py.gt (AnalyzeGpx.distance_m c) (target_dist - 50)) eqn:Hnear.
  - apply gt_true_iff in Hnear.
    assert (Hpos : 0 < AnalyzeGpx.distance_m c) by lra.
    destruct (minutes_seconds_returns (AnalyzeGpx.elapsed_sec c))
      as (t & Ht). rewrite Ht. cbn [Py.bind].
    rewrite (div_positive _ _ Hpos). cbn [Py.bind].
    rewrite div_nonzero by (intro E; discriminate E). cbn [Py.bind].
    eexists. split; [reflexivity|]. intros m E. injection E as <-. cbn.
    split; [exact Hnear|]. split; [reflexivity|]. exists c. auto.
  - eexists. split; [reflexivity|]. intros m E. discriminate E.
Qed.

(** The four milestones of lines 193-198. *)
Lemma milestones_rows (first : AnalyzeGpx.Trackpoint)
      (rest : list AnalyzeGpx.Trackpoint) :
  exists marks,
    PySeq.for_each (AnalyzeGpx.milestone (first :: rest))
                   AnalyzeGpx.milestones = Some marks
    /\ Forall2 (fun target_dist mark =>
                  forall m,
                    mark = Some m ->
                    target_dist - 50 < AnalyzeGpx.milestone_distance_m m
                    /\ AnalyzeGpx.milestone_pace_sec_per_m m
                       = AnalyzeGpx.milestone_elapsed_sec m
                         / AnalyzeGpx.milestone_distance_m m
                    /\ exists c,
                        In c (first :: rest)
                        /\ AnalyzeGpx.distance_m c
                           = AnalyzeGpx.milestone_distance_m m
                        /\ AnalyzeGpx.elapsed_sec c
                           = AnalyzeGpx.milestone_elapsed_sec m)
               AnalyzeGpx.milestones marks.
Proof.
  apply for_each_returns. unfold AnalyzeGpx.milestones.
  repeat constructor; apply milestone_returns; discriminate.
Qed.

(** X22.  On a track with at least one point the milestone loop never
    raises: a milestone is printed only for a closest point less than 50 m
    short of its target, every target is at least 100, so the distance its
    pace divides by is positive.  The guard is what makes the division
    safe: with a target of 0, a lone point at distance 0 raises. *)
Theorem milestones_return (first : AnalyzeGpx.Trackpoint)
        (rest : list AnalyzeGpx.Trackpoint) :
  (exists marks,
      PySeq.for_each (AnalyzeGpx.milestone (first :: rest))
                     AnalyzeGpx.milestones = Some marks
      /\ Forall2 (fun target_dist mark =>
                    forall m,
                      mark = Some m ->
                      target_dist - 50 < AnalyzeGpx.milestone_distance_m m
                      /\ AnalyzeGpx.milestone_pace_sec_per_m m
                         = AnalyzeGpx.milestone_elapsed_sec m
                           / AnalyzeGpx.milestone_distance_m m
                      /\ exists c,
                          In c (first :: rest)
                          /\ AnalyzeGpx.distance_m c
                             = AnalyzeGpx.milestone_distance_m m
                          /\ AnalyzeGpx.elapsed_sec c
                             = AnalyzeGpx.milestone_elapsed_sec m)
                 AnalyzeGpx.milestones marks)
  /\ AnalyzeGpx.milestone
       [AnalyzeGpx.mkTrackpoint (Some 0) 0 0 0 0 0 0 None None] 0
     = None.
Proof.
  split; [apply milestones_rows | reflexivity].
Qed.

(** The summary pace never raises. *)
Lemma summary_pace_returns (last_point : AnalyzeGpx.Trackpoint) :
  exists pace, AnalyzeGpx.summary_pace last_point = Some pace.
Proof.
  unfold AnalyzeGpx.summary_pace.
  destruct (Py.gt (AnalyzeGpx.distance_m last_point) 0) eqn:Hd.
  - apply gt_true_iff in Hd. rewrite (div_positive _ _ Hd). cbn [Py.bind].
    rewrite div_nonzero by (intro E; discriminate E). eexists. reflexivity.
  - eexists. reflexivity.
Qed.

(** X23.  After the extraction [parse_gpx] returns early on an empty track,
    and on a track with points it raises exactly when the first trackpoint
    has no time stamp (line 118 formats it); otherwise it prints the date,
    one table row per sampled index and the four milestones. *)
Theorem report_raises_only_without_first_time
        (first : AnalyzeGpx.Trackpoint) (rest : list AnalyzeGpx.Trackpoint) :
  AnalyzeGpx.report [] = Some None
  /\ (AnalyzeGpx.timestamp first = None ->
      AnalyzeGpx.report (first :: rest) = None)
  /\ (forall t,
         AnalyzeGpx.timestamp first = Some t ->
         exists r,
           AnalyzeGpx.report (first :: rest) = Some (Some r)
           /\ AnalyzeGpx.report_date r = t
           /\ List.length (AnalyzeGpx.report_table r)
              = List.length (AnalyzeGpx.sample_indices (first :: rest))
           /\ List.length (AnalyzeGpx.report_milestones r) = 4%nat).
Proof.
  split; [reflexivity|]. split.
  - intro Hnone. unfold AnalyzeGpx.report.
    cbn [PySeq.last_item Py.bind]. rewrite Hnone. reflexivity.
  - intros t Ht. unfold AnalyzeGpx.report.
    cbn [PySeq.last_item Py.bind]. rewrite Ht. cbn [Py.bind].
    destruct (summary_pace_returns (last rest first)) as (pace & Hpace).
    rewrite Hpace. cbn [Py.bind].
    destruct (table_rows (first :: rest)) as (rows & Hrows & Hall);
      [discriminate|].
    rewrite Hrows. cbn [Py.bind].
    destruct (milestones_rows first rest) as (marks & Hmarks & Hm).
    rewrite Hmarks. cbn [Py.bind].
    eexists. split; [reflexivity|]. cbn. split; [reflexivity|]. split.
    + symmetry. exact (Forall2_length Hall).
    + symmetry. exact (Forall2_length Hm).
Qed.

End GpxReport.

(** ** Closed instances of the analyzer laws *)

Section AnalyzerInstances.

(** A record 600 s into the run at 1500 m. *)
Lemma key_row_agrees_witness :
  exists row,
    AnalyzeFit.key_row (AnalyzeFit.mkRecord 600000 60000 1500)
    = Some (Some row)
    /\ AnalyzeFit.record_est_5k_sec (AnalyzeFit.mkRecord 600000 60000 1500)
       = Some (AnalyzeFit.key_est_5k_sec row).
Proof.
  apply (key_row_agrees_with_table (AnalyzeFit.mkRecord 600000 60000 1500));
    evaluate_closed.
Defined.

(** A record 20 s into the run at 50 m. *)
Lemma key_row_warmup_witness :
  exists row,
    AnalyzeFit.key_row (AnalyzeFit.mkRecord 20000 2000 50) = Some (Some row)
    /\ AnalyzeFit.key_est_5k_sec row = (5000 - 50) * (20000 / 1000.0 / 50)
    /\ 0 < AnalyzeFit.key_est_5k_sec row
    /\ AnalyzeFit.record_est_5k_sec (AnalyzeFit.mkRecord 20000 2000 50)
       = Some 0.
Proof.
  apply (key_row_ignores_warmup (AnalyzeFit.mkRecord 20000 2000 50));
    evaluate_closed.
Defined.

(** The key time 22964 among records at 22900, 22950 and 22980 cs: the
    second is the first within 50. *)
Lemma key_time_report_witness :
  AnalyzeFit.key_time_report
    [AnalyzeFit.mkRecord 229000 22900 1490;
     AnalyzeFit.mkRecord 229500 22950 1495;
     AnalyzeFit.mkRecord 229800 22980 1498] 22964
  = AnalyzeFit.key_row (AnalyzeFit.mkRecord 229500 22950 1495)
  /\ AnalyzeFit.key_time_report
       [AnalyzeFit.mkRecord 229000 22900 1490] 22964
     = Some None.
Proof.
  destruct (key_time_report_first_match
              [AnalyzeFit.mkRecord 229000 22900 1490]
              [AnalyzeFit.mkRecord 229800 22980 1498]
              (AnalyzeFit.mkRecord 229500 22950 1495) 22964)
    as (_ & Hfirst & Hnone); [evaluate_closed|].
  split; [apply Hfirst; evaluate_closed | exact Hnone].
Defined.

(** A session at 3 m/s, and a track that ends 1000 s in at 3000 m. *)
Lemma session_pace_witness :
  exists pace,
    AnalyzeFit.pace_min_per_km 3 = Some pace /\ pace * 3 * 60 == 1000.
Proof.
  destruct (session_pace_inverts_speed
              3 (AnalyzeGpx.mkTrackpoint (Some 1000) 1000 100000 0 0 0 3000
                                         None None))
    as (_ & Hpace & _); try solve [evaluate_closed].
  apply Hpace. evaluate_closed.
Defined.

(** A three-point track whose middle point is at 200.4 m. *)
Lemma sample_indices_witness :
  StronglySorted lt
    (AnalyzeGpx.sample_indices
       [AnalyzeGpx.mkTrackpoint (Some 0) 0 0 0 0 0 0.0 None None;
        AnalyzeGpx.mkTrackpoint (Some 60) 60 6000 0 0 0 200.4 None None;
        AnalyzeGpx.mkTrackpoint (Some 90) 90 9000 0 0 0 310 None None])
  /\ AnalyzeGpx.sample_indices
       [AnalyzeGpx.mkTrackpoint (Some 0) 0 0 0 0 0 0.0 None None;
        AnalyzeGpx.mkTrackpoint (Some 60) 60 6000 0 0 0 200.4 None None;
        AnalyzeGpx.mkTrackpoint (Some 90) 90 9000 0 0 0 310 None None]
     = [0%nat; 1%nat; 2%nat].
Proof.
  destruct (sample_indices_spec
              [AnalyzeGpx.mkTrackpoint (Some 0) 0 0 0 0 0 0.0 None None;
               AnalyzeGpx.mkTrackpoint (Some 60) 60 6000 0 0 0 200.4 None None;
               AnalyzeGpx.mkTrackpoint (Some 90) 90 9000 0 0 0 310 None None])
    as (Hsorted & _); [discriminate|].
  split; [exact Hsorted | reflexivity].
Defined.

(** The same track: three rows. *)
Lemma table_witness :
  exists rows,
    AnalyzeGpx.table
      [AnalyzeGpx.mkTrackpoint (Some 0) 0 0 0 0 0 0.0 None None;
       AnalyzeGpx.mkTrackpoint (Some 60) 60 6000 0 0 0 200.4 None None;
       AnalyzeGpx.mkTrackpoint (Some 90) 90 9000 0 0 0 310 None None]
    = Some rows
    /\ List.length rows = 3%nat.
Proof.
  destruct (table_returns
              [AnalyzeGpx.mkTrackpoint (Some 0) 0 0 0 0 0 0.0 None None;
               AnalyzeGpx.mkTrackpoint (Some 60) 60 6000 0 0 0 200.4 None None;
               AnalyzeGpx.mkTrackpoint (Some 90) 90 9000 0 0 0 310 None None])
    as (rows & Hrows & Hall); [discriminate|].
  exists rows. split; [exact Hrows|].
  symmetry. exact (Forall2_length Hall).
Defined.

End AnalyzerInstances.
